(** * print/validators.py: validation of an uploaded file against an order
    configuration.

    Shallow embedding of [src/print/validators.py].

    Modelling conventions.
    - Python [int] is [Z]; a [Decimal] or a [float] is the rational [Q] that
      it denotes.  Where the code turns a number into a [float] and prints
      it (the expected size of a custom format, the size of the file in MB),
      the conversion and the operations round to binary64 as Python does
      ([Binary64.round]), so that the printed digits are those of the code;
      values beyond the largest finite [float], infinities and NaN are outside
      the model.  The arithmetic inside the two dimension validators (the
      conversions to millimetres and the tolerance tests) is kept exact, with
      the constants [25.4], [0.352778] and the tolerance as exact decimal
      fractions.
    - Python [str] is [string]; the accented letters and pictograms of the
      messages are kept as their UTF-8 bytes, and [str.lower] is its
      restriction to ASCII letters (no character outside ASCII lowercases to
      one of the accepted extensions, so the checks on the extension agree).
    - The module-level flag [PDF2_AVAILABLE] is an explicit boolean argument.
    - The uploaded file is a seekable stream: its read position is state that
      is threaded through every function that touches the stream.  What
      [PyPDF2.PdfReader] and [PIL.Image.open] make of the stream is a field of
      the file, indexed by the position the stream is at when they are called.
    - An exception caught by a [try]/[except Exception as e] is an explicit
      constructor carrying [str(e)].
    - The [print] calls only log and are left out. *)

From Stdlib Require Import ZArith QArith Qabs List Bool Ascii String Lia Lqa.
From Stdlib Require Import DecimalString.
Import ListNotations.

Open Scope string_scope.
Open Scope Z_scope.

(** ** Python strings *)

Module PyStr.

(** [str(n)] for an [int]. *)
Definition str_of_Z (n : Z) : string :=
  NilZero.string_of_int (Z.to_int n).

(** [c.lower()] on the ASCII letters; the bytes of a character outside ASCII
    are left as they are. *)
Definition lower_ascii (c : ascii) : ascii :=
  let n := nat_of_ascii c in
  if (Nat.leb 65 n && Nat.leb n 90)%bool then ascii_of_nat (n + 32) else c.

Fixpoint lower (s : string) : string :=
  match s with
  | EmptyString => EmptyString
  | String c r => String (lower_ascii c) (lower r)
  end.

(** [s.rfind(c)]: the highest index of [c] in [s], [-1] when there is none.
    [i] is the index of the first character of [s]. *)
Fixpoint rfind_from (c : ascii) (s : string) (i : Z) : Z :=
  match s with
  | EmptyString => -1
  | String d r =>
      let k := rfind_from c r (i + 1) in
      if 0 <=? k then k else if Ascii.eqb d c then i else -1
  end.

Definition rfind (c : ascii) (s : string) : Z := rfind_from c s 0.

(** [p[:i]] and [p[i:]] for [0 <= i]. *)
Definition take (i : Z) (p : string) : string :=
  substring 0 (Z.to_nat i) p.

Definition drop (i : Z) (p : string) : string :=
  substring (Z.to_nat i) (String.length p - Z.to_nat i) p.

(** The [while filenameIndex < dotIndex] loop of [genericpath._splitext]:
    [n] characters from index [i] on are inspected, and the loop leaves with
    [true] at the first one that is not the extension separator. *)
Fixpoint has_non_dot (p : string) (i : Z) (n : nat) : bool :=
  match n with
  | O => false
  | S m =>
      match get (Z.to_nat i) p with
      | Some c => if Ascii.eqb c "." then has_non_dot p (i + 1) m else true
      | None => true
      end
  end.

(** [os.path.splitext(p)] of [posixpath] ([sep = '/'], no [altsep],
    [extsep = '.']). *)
Definition splitext (p : string) : string * string :=
  let sepIndex := rfind "/" p in
  let dotIndex := rfind "." p in
  if (sepIndex <? dotIndex)
  then
    if has_non_dot p (sepIndex + 1) (Z.to_nat (dotIndex - (sepIndex + 1)))
    then (take dotIndex p, drop dotIndex p)
    else (p, "")
  else (p, "").

(** [x in l] for a list of strings. *)
Definition mem (x : string) (l : list string) : bool :=
  existsb (String.eqb x) l.

(** [s.isascii()]: every character is below 128. *)
Fixpoint isascii (s : string) : bool :=
  match s with
  | EmptyString => true
  | String c r => (Nat.ltb (nat_of_ascii c) 128 && isascii r)%bool
  end.

End PyStr.

(** ** Fixed-point formatting of numbers *)

Module PyFormat.

(** Nearest integer to [q], ties to the even one (the rounding of the [f]
    presentation type). *)
Definition round_half_even (q : Q) : Z :=
  let a := Qnum q in
  let b := Zpos (Qden q) in
  let fl := a / b in
  match (2 * (a mod b)) ?= b with
  | Lt => fl
  | Gt => fl + 1
  | Eq => if Z.even fl then fl else fl + 1
  end.

Fixpoint zeros (n : nat) : string :=
  match n with
  | O => ""
  | S m => String "0" (zeros m)
  end.

(** [n] written with at least [width] digits. *)
Definition pad_digits (width : nat) (n : Z) : string :=
  let s := PyStr.str_of_Z n in
  zeros (width - String.length s) ++ s.

(** [format(q, '.<prec>f')] for [1 <= prec], where [q] is the number that the
    [int] or the [float] being printed denotes. *)
Definition format_f (prec : nat) (q : Q) : string :=
  let scale := 10 ^ Z.of_nat prec in
  let n := round_half_even (Qabs q * inject_Z scale) in
  (if Qle_bool 0 q then "" else "-")
    ++ PyStr.str_of_Z (n / scale) ++ "." ++ pad_digits prec (n mod scale).

End PyFormat.

(** ** Binary64 rounding *)

Module Binary64.

(** [2 ** z] for an integer [z] of either sign. *)
Definition pow2 (z : Z) : Q :=
  if 0 <=? z then inject_Z (2 ^ z) else 1 # Z.to_pos (2 ^ (- z)).

(** The integer [e] with [2 ** e <= |q| < 2 ** (e + 1)], for [q] not zero. *)
Definition ilog2 (q : Q) : Z :=
  let k := Z.log2 (Z.abs (Qnum q)) - Z.log2 (Zpos (Qden q)) in
  if Qle_bool (pow2 k) (Qabs q) then k else k - 1.

(** The [float] nearest to [q], ties to the even significand: 53 significant
    bits, and below [2 ** -1022] the fixed spacing [2 ** -1074] of the
    subnormal numbers. *)
Definition round (q : Q) : Q :=
  if Qeq_bool q 0 then 0
  else
    let e := Z.max (ilog2 q) (-1022) in
    let quantum := pow2 (e - 52) in
    inject_Z (PyFormat.round_half_even (q / quantum)) * quantum.

(** [float(x)] for a [Decimal] or a [float] [x]. *)
Definition of_decimal (q : Q) : Q := round q.

(** [a * b] and [a / b] on [float]; also [n / m] on two [int], which Python
    rounds once from the exact quotient. *)
Definition mul (a b : Q) : Q := round (a * b).

Definition div (a b : Q) : Q := round (a / b).

End Binary64.

(** ** Data model *)

(** A page of a parsed PDF: reading its [mediabox] raises, or gives a width
    and a height in points. *)
Inductive page : Type :=
| PageRaises (e : string)
| MediaBox (width height : Q).

(** [PyPDF2.PdfReader(file_obj)] with its [pages]: the reader raises, or the
    document has a sequence of pages. *)
Inductive pdf_reader : Type :=
| ReaderRaises (e : string)
| Reader (pages : list page).

(** A number that is printed with [str()]: its value and its text. *)
Record pynum : Type := { value : Q; text : string }.

Definition int_72 : pynum := {| value := 72; text := "72" |}.

(** [Image.open(file_obj)]: decoding raises, or gives [image.size] in
    pixels and the ['dpi'] entry of [image.info], when there is one. *)
Inductive image : Type :=
| ImageRaises (e : string)
| Image (width_px height_px : Z) (dpi : option (pynum * pynum)).

(** The uploaded file.  [pdf_view p] and [image_view p] are what the two
    libraries return when they are handed the stream at position [p],
    together with the position they leave it at. *)
Record file_obj : Type := {
  name : string;
  size : Z;
  content_type : string;
  position : Z;
  pdf_view : Z -> pdf_reader * Z;
  image_view : Z -> image * Z
}.

Definition seek (offset : Z) (f : file_obj) : file_obj :=
  {| name := name f; size := size f; content_type := content_type f;
     position := offset; pdf_view := pdf_view f; image_view := image_view f |}.

Definition PdfReader (f : file_obj) : pdf_reader * file_obj :=
  let '(r, p) := pdf_view f (position f) in (r, seek p f).

Definition Image_open (f : file_obj) : image * file_obj :=
  let '(r, p) := image_view f (position f) in (r, seek p f).

(** The fields of the order configuration that the validators read; [None]
    is Python's [None]. *)
Record order_config : Type := {
  format_type : string;
  small_format : option string;
  largeur : option Q;
  hauteur : option Q;
  is_book : bool;
  book_pages : option Z;
  duplex : string
}.

(** Truth value of an optional string, number or integer in an [if]. *)
Definition truthy_str (o : option string) : bool :=
  match o with
  | Some s => negb (String.eqb s "")
  | None => false
  end.

Definition truthy_Q (o : option Q) : bool :=
  match o with
  | Some q => negb (Qeq_bool q 0)
  | None => false
  end.

Definition truthy_Z (o : option Z) : bool :=
  match o with
  | Some n => negb (n =? 0)
  | None => false
  end.

(** The dictionary built by [get_file_info]. *)
Record file_info_dict : Type := {
  info_name : string;
  info_size : Z;
  info_content_type : string;
  extension : string
}.

(** The second component of what the two dimension validators return: one of
    the dictionaries, or a plain string. *)
Inductive details : Type :=
| WarningDict (warning : string)
| SizeDict (found expected : Q * Q) (dpi : option pynum)
| Message (s : string).

(** [isinstance(details, dict)]. *)
Definition is_dict (d : details) : bool :=
  match d with
  | Message _ => false
  | _ => true
  end.

(** The dictionary returned by [validate_file_against_config]. *)
Record verdict : Type := {
  is_valid : bool;
  errors : list string;
  warnings : list string;
  file_info : file_info_dict
}.

(** ** Constants *)

Definition FORMAT_DIMENSIONS : list (string * (Q * Q)) :=
  [ ("A3", (297%Q, 420%Q)); ("A4", (210%Q, 297%Q)); ("A5", (148%Q, 210%Q)) ].

Definition TOLERANCE_MM : Q := 2.

(** Millimetres in a point, as the source writes it: [0.352778]. *)
Definition MM_PER_POINT : Q := 0.352778.

(** Millimetres in an inch: [25.4]. *)
Definition MM_PER_INCH : Q := 25.4.

Fixpoint lookup {A : Type} (k : string) (d : list (string * A)) : option A :=
  match d with
  | [] => None
  | (k', v) :: r => if String.eqb k k' then Some v else lookup k r
  end.

(** [a > b] on rationals. *)
Definition Qgt_bool (a b : Q) : bool := negb (Qle_bool a b).

(** ** Messages *)

Module Msg.

Definition unsupported_format (ext : string) : string :=
  "Format non supporté: " ++ ext ++ ". Formats acceptés: .pdf, .jpg, .jpeg, .png".

Definition book_needs_pdf : string :=
  "❌ Pour les livres, seul le format PDF est accepté".

Definition pdf_system_unavailable : string :=
  "❌ Système de validation PDF non disponible. Contactez l'administrateur.".

Definition page_count (actual_pages expected_pages : Z) : string :=
  "❌ Nombre de pages incorrect. Fichier: " ++ PyStr.str_of_Z actual_pages ++ " pages, Configuration: "
    ++ PyStr.str_of_Z expected_pages ++ " pages".

Definition pdf_unreadable (e : string) : string :=
  "❌ Impossible de lire le PDF: " ++ e.

(** [max_size_mb] is the integer [10]; [size/1024/1024] is a division of two
    [int] followed by a division of a [float]. *)
Definition too_large (size max_size_mb : Z) : string :=
  "Fichier trop volumineux ("
    ++ PyFormat.format_f 2 (Binary64.div (Binary64.div (inject_Z size) 1024) 1024)
    ++ "MB). Maximum: " ++ PyStr.str_of_Z max_size_mb ++ "MB".

Definition pdf_dimensions (expected_width expected_height : Q) : string :=
  "Dimensions PDF incorrectes. Attendu: " ++ PyFormat.format_f 1 expected_width ++ "x"
    ++ PyFormat.format_f 1 expected_height ++ "mm".

Definition image_dimensions (expected_width expected_height : Q) : string :=
  "Dimensions image incorrectes. Attendu: " ++ PyFormat.format_f 1 expected_width ++ "x"
    ++ PyFormat.format_f 1 expected_height ++ "mm".

Definition low_resolution (dpi : pynum) : string :=
  "⚠️ Résolution basse (" ++ text dpi ++ " DPI). Recommandé: 300 DPI pour une impression de qualité".

Definition odd_duplex_book : string :=
  "⚠️ Pour l'impression recto/verso d'un livre, un nombre pair de pages est recommandé".

Definition pdf_dimensions_skipped : string :=
  "PyPDF2 non disponible, validation des dimensions PDF ignorée".

Definition empty_pdf : string := "PDF vide".

Definition pdf_read_error (e : string) : string := "Erreur lecture PDF: " ++ e.

Definition image_read_error (e : string) : string := "Erreur lecture image: " ++ e.

End Msg.

(** ** The validators *)

(** [get_file_info]: the extension is the lowercased second component of
    [os.path.splitext]. *)
Definition get_file_info (f : file_obj) : file_info_dict :=
  {| info_name := name f;
     info_size := size f;
     info_content_type := content_type f;
     extension := PyStr.lower (snd (PyStr.splitext (name f))) |}.

(** The two lines [if width_mm > height_mm: width_mm, height_mm =
    height_mm, width_mm] that both validators apply to the measured size. *)
Definition portrait (width_mm height_mm : Q) : Q * Q :=
  if Qgt_bool width_mm height_mm then (height_mm, width_mm)
  else (width_mm, height_mm).

(** [abs(measured - expected) <= TOLERANCE_MM]. *)
Definition within_tolerance (measured expected : Q) : bool :=
  Qle_bool (Qabs (measured - expected)) TOLERANCE_MM.

(** [validate_pdf_dimensions]. *)
Definition validate_pdf_dimensions (PDF2_AVAILABLE : bool) (f : file_obj)
    (expected_width expected_height : Q) : (bool * details) * file_obj :=
  if negb PDF2_AVAILABLE
  then ((true, WarningDict Msg.pdf_dimensions_skipped), f)
  else
    let '(pdf, f) := PdfReader f in
    match pdf with
    | ReaderRaises e => ((false, Message (Msg.pdf_read_error e)), f)
    | Reader [] => ((false, Message Msg.empty_pdf), f)
    | Reader (PageRaises e :: _) => ((false, Message (Msg.pdf_read_error e)), f)
    | Reader (MediaBox width_pt height_pt :: _) =>
        let width_mm := (width_pt * MM_PER_POINT)%Q in
        let height_mm := (height_pt * MM_PER_POINT)%Q in
        let '(width_mm, height_mm) := portrait width_mm height_mm in
        let width_ok := within_tolerance width_mm expected_width in
        let height_ok := within_tolerance height_mm expected_height in
        ((width_ok && height_ok,
          SizeDict (width_mm, height_mm) (expected_width, expected_height) None),
         f)
    end.

(** [validate_image_dimensions]. *)
Definition validate_image_dimensions (f : file_obj)
    (expected_width expected_height : Q) : (bool * details) * file_obj :=
  let '(img, f) := Image_open f in
  match img with
  | ImageRaises e => ((false, Message (Msg.image_read_error e)), f)
  | Image width_px height_px info_dpi =>
      let dpi :=
        match info_dpi with
        | Some d => d
        | None => (int_72, int_72)
        end in
      let dpi_horizontal := fst dpi in
      let '(width_mm, height_mm) :=
        if Qgt_bool (value dpi_horizontal) 0
        then ((inject_Z width_px * MM_PER_INCH / value dpi_horizontal)%Q,
              (inject_Z height_px * MM_PER_INCH / value dpi_horizontal)%Q)
        else ((inject_Z width_px * MM_PER_INCH / 72)%Q,
              (inject_Z height_px * MM_PER_INCH / 72)%Q) in
      let '(width_mm, height_mm) := portrait width_mm height_mm in
      let width_ok := within_tolerance width_mm expected_width in
      let height_ok := within_tolerance height_mm expected_height in
      ((width_ok && height_ok,
        SizeDict (width_mm, height_mm) (expected_width, expected_height)
          (Some dpi_horizontal)),
       f)
  end.

(** [get_expected_dimensions]: the [elif] is only looked at when the first
    condition is false, and every path that does not [return] a pair falls
    through to [return None].  The table holds [int]; the custom sizes are
    [float(config.largeur) * 10] and [float(config.hauteur) * 10]. *)
Definition get_expected_dimensions (config : order_config) : option (Q * Q) :=
  if (String.eqb (format_type config) "petit" && truthy_str (small_format config))%bool
  then
    match small_format config with
    | Some k => lookup k FORMAT_DIMENSIONS
    | None => None
    end
  else if String.eqb (format_type config) "grand"
  then
    if (truthy_Q (largeur config) && truthy_Q (hauteur config))%bool
    then
      match largeur config, hauteur config with
      | Some l, Some h =>
          Some (Binary64.mul (Binary64.of_decimal l) 10,
                Binary64.mul (Binary64.of_decimal h) 10)
      | _, _ => None
      end
    else None
  else None.

(** The extensions of the first check of the pipeline. *)
Definition ACCEPTED_EXTENSIONS : list string := [".pdf"; ".jpg"; ".jpeg"; ".png"].

Definition IMAGE_EXTENSIONS : list string := [".jpg"; ".jpeg"; ".png"].

(** [not errors]. *)
Definition no_errors (errs : list string) : bool :=
  match errs with
  | [] => true
  | _ :: _ => false
  end.

(** Lines 159-160: the extension is one of the accepted ones. *)
Definition check_format (info : file_info_dict) (errs : list string) : list string :=
  if PyStr.mem (extension info) ACCEPTED_EXTENSIONS
  then errs
  else (errs ++ [Msg.unsupported_format (extension info)])%list.

(** Lines 183-205: the page count of a book that is a PDF. *)
Definition check_book_pages (PDF2_AVAILABLE : bool) (config : order_config)
    (errs : list string) (f : file_obj) : list string * file_obj :=
  if truthy_Z (book_pages config)
  then
    match book_pages config with
    | Some expected_pages =>
        let f := seek 0 f in
        if negb PDF2_AVAILABLE
        then ((errs ++ [Msg.pdf_system_unavailable])%list, f)
        else
          let '(pdf, f) := PdfReader f in
          match pdf with
          | Reader pages =>
              let actual_pages := Z.of_nat (List.length pages) in
              if negb (actual_pages =? expected_pages)
              then ((errs ++ [Msg.page_count actual_pages expected_pages])%list, f)
              else (errs, f)
          | ReaderRaises e => ((errs ++ [Msg.pdf_unreadable e])%list, f)
          end
    | None => (errs, f)
    end
  else (errs, f).

(** Lines 208-212: the maximal size. *)
Definition check_size (info : file_info_dict) (errs : list string) : list string :=
  if no_errors errs
  then
    let max_size_mb := 10 in
    let max_size_bytes := max_size_mb * 1024 * 1024 in
    if info_size info >? max_size_bytes
    then (errs ++ [Msg.too_large (info_size info) max_size_mb])%list
    else errs
  else errs.

(** Lines 215-235: the dimensions. *)
Definition check_dimensions (PDF2_AVAILABLE : bool) (config : order_config)
    (info : file_info_dict) (errs warns : list string) (f : file_obj)
  : list string * list string * file_obj :=
  match get_expected_dimensions config with
  | Some (expected_width, expected_height) =>
      if (PDF2_AVAILABLE && no_errors errs)%bool
      then
        let f := seek 0 f in
        if String.eqb (extension info) ".pdf"
        then
          let '((ok, d), f) :=
            validate_pdf_dimensions PDF2_AVAILABLE f expected_width expected_height in
          if (negb ok && negb (is_dict d))%bool
          then ((errs ++ [Msg.pdf_dimensions expected_width expected_height])%list, warns, f)
          else (errs, warns, f)
        else if PyStr.mem (extension info) IMAGE_EXTENSIONS
        then
          let '((ok, d), f) :=
            validate_image_dimensions f expected_width expected_height in
          let errs :=
            if negb ok
            then (errs ++ [Msg.image_dimensions expected_width expected_height])%list
            else errs in
          let warns :=
            match d with
            | SizeDict _ _ (Some dpi) =>
                if Qgt_bool 150 (value dpi)
                then (warns ++ [Msg.low_resolution dpi])%list
                else warns
            | _ => warns
            end in
          (errs, warns, f)
        else (errs, warns, f)
      else (errs, warns, f)
  | None => (errs, warns, f)
  end.

(** Lines 238-242: both sides of the sheet. *)
Definition check_duplex (config : order_config) (warns : list string) : list string :=
  if String.eqb (duplex config) "recto_verso"
  then
    if (is_book config && truthy_Z (book_pages config))%bool
    then
      match book_pages config with
      | Some n =>
          if negb (n mod 2 =? 0) then (warns ++ [Msg.odd_duplex_book])%list else warns
      | None => warns
      end
    else warns
  else warns.

(** [validate_file_against_config]: the verdict, and the file with the
    position the stream is left at. *)
Definition validate_file_against_config (PDF2_AVAILABLE : bool)
    (file : file_obj) (config : order_config) : verdict * file_obj :=
  let errs := [] in
  let warns := [] in
  let info := get_file_info file in
  let errs := check_format info errs in
  if (is_book config && negb (String.eqb (extension info) ".pdf"))%bool
  then
    ({| is_valid := false;
        errors := (errs ++ [Msg.book_needs_pdf])%list;
        warnings := warns;
        file_info := info |},
     file)
  else
    let '(errs, f) :=
      if is_book config
      then check_book_pages PDF2_AVAILABLE config errs file
      else (errs, file) in
    let errs := check_size info errs in
    let '(errs, warns, f) := check_dimensions PDF2_AVAILABLE config info errs warns f in
    let warns := check_duplex config warns in
    ({| is_valid := no_errors errs;
        errors := errs;
        warnings := warns;
        file_info := info |},
     f).

(** ** Sample inputs *)

Module Sample.

Definition dpi_pair (n : Z) : pynum * pynum :=
  ({| value := inject_Z n; text := PyStr.str_of_Z n |},
   {| value := inject_Z n; text := PyStr.str_of_Z n |}).

(** An upload whose content the two libraries read the same way from every
    position; they leave the stream [7] and [3] bytes further. *)
Definition upload (n : string) (sz : Z) (pdf : pdf_reader) (img : image) : file_obj :=
  {| name := n; size := sz; content_type := "application/octet-stream";
     position := 0;
     pdf_view := fun p => (pdf, p + 7);
     image_view := fun p => (img, p + 3) |}.

Definition config (ft : string) (sf : option string) (l h : option Q)
    (book : bool) (pages : option Z) (d : string) : order_config :=
  {| format_type := ft; small_format := sf; largeur := l; hauteur := h;
     is_book := book; book_pages := pages; duplex := d |}.

Definition a4_sheet : order_config :=
  config "petit" (Some "A4") None None false None "recto".

Definition book_101 : order_config :=
  config "petit" (Some "A4") None None true (Some 101) "recto_verso".

Definition not_an_image : image := ImageRaises "cannot identify image file".

Definition not_a_pdf : pdf_reader := ReaderRaises "EOF marker not found".

End Sample.

(** ** Definitions used in the statements *)


(** The errors accumulated when the size check starts, and the file as the
    book checks leave it.  Only meaningful when the pipeline has not returned
    at the book-format check. *)
Definition before_size (PDF2_AVAILABLE : bool) (f : file_obj) (config : order_config)
  : list string * file_obj :=
  if is_book config
  then check_book_pages PDF2_AVAILABLE config (check_format (get_file_info f) []) f
  else (check_format (get_file_info f) [], f).

(** The messages of the checks that come before the size check. *)
Inductive early_error : string -> Prop :=
| early_unsupported ext : early_error (Msg.unsupported_format ext)
| early_book : early_error Msg.book_needs_pdf
| early_unavailable : early_error Msg.pdf_system_unavailable
| early_page_count a e : early_error (Msg.page_count a e)
| early_unreadable e : early_error (Msg.pdf_unreadable e).

(** The conversion in the words of the specification: [(pixels * 25.4) / dpi],
    with 72 in the place of a [dpi] that is not positive. *)
Definition spec_pixels_to_mm (pixels : Z) (dpi : Q) : Q :=
  (inject_Z pixels * 25.4 / (if Qle_bool dpi 0 then 72 else dpi))%Q.

(** The configuration with another value of [duplex]. *)
Definition with_duplex (d : string) (config : order_config) : order_config :=
  {| format_type := format_type config; small_format := small_format config;
     largeur := largeur config; hauteur := hauteur config;
     is_book := is_book config; book_pages := book_pages config; duplex := d |}.

(** Two files with the same content: they differ at most in the position of
    the stream. *)
Definition same_content (f g : file_obj) : Prop := seek 0 f = seek 0 g.

(** Two files that the two libraries read the same way from the start of the
    stream. *)
Definition same_reading (f g : file_obj) : Prop :=
  fst (pdf_view f 0) = fst (pdf_view g 0) /\
  fst (image_view f 0) = fst (image_view g 0).

(** ** Facts about the helpers *)

Example splitext_pdf : PyStr.splitext "scan.final.PDF" = ("scan.final", ".PDF").
Proof. reflexivity. Qed.

Example splitext_hidden : PyStr.splitext "dir.d/.profile" = ("dir.d/.profile", "").
Proof. reflexivity. Qed.

Example splitext_none : PyStr.splitext "a.b/readme" = ("a.b/readme", "").
Proof. reflexivity. Qed.

Example lower_ext : PyStr.lower ".JpEg" = ".jpeg".
Proof. reflexivity. Qed.

Example format_int : PyFormat.format_f 1 (inject_Z 210) = "210.0".
Proof. reflexivity. Qed.

Example format_round : PyFormat.format_f 2 (10616832 # 1048576) = "10.12".
Proof. reflexivity. Qed.

Example format_small : PyFormat.format_f 2 (1 # 300) = "0.00".
Proof. reflexivity. Qed.

Example format_neg : PyFormat.format_f 1 (- (1203 # 100)) = "-12.0".
Proof. reflexivity. Qed.

(** [float(Decimal('0.1'))] is the binary64 number next to one tenth. *)
Example float_one_tenth :
  Qred (Binary64.of_decimal 0.1) = (3602879701896397 # 36028797018963968)%Q.
Proof. vm_compute. reflexivity. Qed.

(** [float(Decimal('29.7')) * 10] is 297 exactly; [float(Decimal('21.045')) * 10]
    is just above 210.45 and prints as 210.5, where the exact product is
    the tie 210.45 and would print as 210.4. *)
Example float_times_ten :
  Qred (Binary64.mul (Binary64.of_decimal 29.7) 10) = 297%Q /\
  Qred (Binary64.mul (Binary64.of_decimal 21.045) 10)
  = (7404551106094695 # 35184372088832)%Q /\
  PyFormat.format_f 1 (Binary64.mul (Binary64.of_decimal 21.045) 10) = "210.5" /\
  PyFormat.format_f 1 (21.045 * 10) = "210.4".
Proof. repeat split; vm_compute; reflexivity. Qed.

(** [round_half_even q] is within one half of [q]. *)
Lemma round_half_even_close (q : Q) :
  2 * Z.abs (PyFormat.round_half_even q * Zpos (Qden q) - Qnum q) <= Zpos (Qden q).
Proof.
  unfold PyFormat.round_half_even.
  pose proof (Z.div_mod (Qnum q) (Zpos (Qden q)) ltac:(lia)) as Hdm.
  pose proof (Z.mod_pos_bound (Qnum q) (Zpos (Qden q)) ltac:(lia)) as Hb.
  set (a := Qnum q) in *. set (b := Zpos (Qden q)) in *.
  set (m := a mod b) in *. set (d := a / b) in *.
  destruct (Z.compare_spec (2 * m) b) as [He|Hl|Hg];
    [destruct (Z.even d)| |]; lia.
Qed.

Lemma no_errors_nil (errs : list string) : no_errors errs = true <-> errs = [].
Proof.
  destruct errs as [|e r]; simpl; split; intro H; try reflexivity; discriminate H.
Qed.

Lemma no_errors_app (errs : list string) (e : string) :
  no_errors (errs ++ [e]) = false.
Proof. destruct errs; reflexivity. Qed.

Lemma image_extension_accepted (x : string) :
  PyStr.mem x IMAGE_EXTENSIONS = true ->
  PyStr.mem x ACCEPTED_EXTENSIONS = true /\ String.eqb x ".pdf" = false.
Proof.
  unfold PyStr.mem, IMAGE_EXTENSIONS, ACCEPTED_EXTENSIONS; simpl.
  intro H. split.
  - rewrite H. apply orb_true_r.
  - destruct (String.eqb x ".pdf") eqn:E; [|reflexivity].
    apply String.eqb_eq in E. subst x. discriminate H.
Qed.

Lemma eqb_false_of_neq (x y : string) : x <> y -> String.eqb x y = false.
Proof. intro H. apply String.eqb_neq. exact H. Qed.

(** ** C1: a book that is not a PDF *)

(** C1, as stated, fails: the first check has already recorded its own error
    when the extension is outside the accepted ones, so a book uploaded as
    [notes.txt] is rejected with two errors, not one. *)
Lemma C1_txt_book_has_two_errors :
  let f := Sample.upload "notes.txt" 10 Sample.not_a_pdf Sample.not_an_image in
  is_book Sample.book_101 = true /\
  extension (get_file_info f) <> ".pdf" /\
  errors (fst (validate_file_against_config true f Sample.book_101))
    = [Msg.unsupported_format ".txt"; Msg.book_needs_pdf] /\
  errors (fst (validate_file_against_config true f Sample.book_101))
    <> [Msg.book_needs_pdf].
Proof.
  cbv zeta. repeat split; try reflexivity; vm_compute; intro H; discriminate H.
Qed.

(** C1, amended: when [is_book] holds and the lowercased extension is not
    [.pdf], the pipeline returns at once: the verdict is invalid, its
    warnings are empty, its errors are the error of the first check (present
    only when the extension is not an accepted one) followed by the book-format
    error, and the stream has not been touched.  The verdict depends on
    nothing but the file's metadata; for [.jpg], [.jpeg] and [.png] the
    book-format error is the only error. *)
Theorem C1_book_not_pdf_returns_at_once
    (PDF2_AVAILABLE : bool) (f : file_obj) (config : order_config) :
  is_book config = true ->
  extension (get_file_info f) <> ".pdf" ->
  let ext := extension (get_file_info f) in
  let v := fst (validate_file_against_config PDF2_AVAILABLE f config) in
  snd (validate_file_against_config PDF2_AVAILABLE f config) = f /\
  is_valid v = false /\
  warnings v = [] /\
  file_info v = get_file_info f /\
  errors v =
    ((if PyStr.mem ext ACCEPTED_EXTENSIONS then [] else [Msg.unsupported_format ext])
       ++ [Msg.book_needs_pdf])%list /\
  (PyStr.mem ext IMAGE_EXTENSIONS = true -> errors v = [Msg.book_needs_pdf]).
Proof.
  intros Hbook Hext ext v. subst v ext.
  unfold validate_file_against_config.
  rewrite Hbook, (eqb_false_of_neq _ _ Hext). cbn [andb negb fst snd].
  refine (conj eq_refl (conj eq_refl (conj eq_refl (conj eq_refl (conj _ _))))).
  - cbn [errors]. unfold check_format.
    destruct (PyStr.mem (extension (get_file_info f)) ACCEPTED_EXTENSIONS); reflexivity.
  - intro Himg. cbn [errors]. unfold check_format.
    destruct (image_extension_accepted _ Himg) as [Hacc _].
    rewrite Hacc. reflexivity.
Qed.

Lemma C1_book_not_pdf_returns_at_once_witness :
  let f := Sample.upload "cover.PNG" 99999999 Sample.not_a_pdf Sample.not_an_image in
  errors (fst (validate_file_against_config false f Sample.book_101))
    = [Msg.book_needs_pdf].
Proof.
  cbv zeta.
  refine (proj2 (proj2 (proj2 (proj2 (proj2
    (C1_book_not_pdf_returns_at_once false
       (Sample.upload "cover.PNG" 99999999 Sample.not_a_pdf Sample.not_an_image)
       Sample.book_101 _ _))))) _).
  - reflexivity.
  - vm_compute. intro H. discriminate H.
  - reflexivity.
Defined.

(** ** C2: a PDF whose page is not of the expected size *)

(** Whatever the size of the first page is, a PDF that parses gets no error
    from the dimension check: the error is only appended when the details are
    not a dictionary, and a measured page always comes with one. *)
Lemma check_dimensions_measured_pdf
    (config : order_config) (info : file_info_dict) (errs warns : list string)
    (f : file_obj) (w h : Q) (rest : list page) (p : Z) :
  extension info = ".pdf" ->
  pdf_view f 0 = (Reader (MediaBox w h :: rest), p) ->
  fst (fst (check_dimensions true config info errs warns f)) = errs.
Proof.
  intros Hext Hview. unfold check_dimensions.
  destruct (get_expected_dimensions config) as [[ew eh]|]; [|reflexivity].
  destruct (no_errors errs); [|reflexivity].
  cbn [andb]. rewrite Hext. cbn [String.eqb Ascii.eqb Bool.eqb].
  unfold validate_pdf_dimensions, PdfReader. cbn [negb seek position pdf_view].
  rewrite Hview.
  destruct (portrait (w * MM_PER_POINT) (h * MM_PER_POINT)) as [wm hm].
  cbn [is_dict negb andb]. rewrite andb_false_r. reflexivity.
Qed.

(** C2: the page of 210pt x 297pt is measured as about 74.08mm x 104.77mm,
    which is outside the tolerance of A4 on both axes, and the extractor
    reports the mismatch; the pipeline nevertheless appends no error and the
    verdict is valid. *)
Theorem C2_pdf_mismatch_is_not_reported :
  let f := Sample.upload "flyer.pdf" 52000 (Reader [MediaBox 210 297])
             Sample.not_an_image in
  get_expected_dimensions Sample.a4_sheet = Some (210%Q, 297%Q) /\
  within_tolerance (210 * MM_PER_POINT) 210 = false /\
  within_tolerance (297 * MM_PER_POINT) 297 = false /\
  fst (fst (validate_pdf_dimensions true (seek 0 f) 210 297)) = false /\
  is_dict (snd (fst (validate_pdf_dimensions true (seek 0 f) 210 297))) = true /\
  errors (fst (validate_file_against_config true f Sample.a4_sheet)) = [] /\
  is_valid (fst (validate_file_against_config true f Sample.a4_sheet)) = true.
Proof.
  cbv zeta. repeat split; vm_compute; reflexivity.
Qed.

(** ** C3: orientation *)





Lemma Qle_bool_false (a b : Q) : Qle_bool a b = false -> (b < a)%Q.
Proof.
  intro H. apply Qnot_le_lt. intro Hle. apply Qle_bool_iff in Hle. congruence.
Qed.










(** ** C4: the expected dimensions *)

Lemma known_format_not_empty (k : string) (d : Q * Q) :
  lookup k FORMAT_DIMENSIONS = Some d -> String.eqb k "" = false.
Proof.
  intro H. destruct (String.eqb k "") eqn:E; [|reflexivity].
  apply String.eqb_eq in E. subst k. discriminate H.
Qed.

Lemma known_format_keys (k : string) (d : Q * Q) :
  lookup k FORMAT_DIMENSIONS = Some d ->
  (k = "A3" /\ d = (297%Q, 420%Q)) \/
  (k = "A4" /\ d = (210%Q, 297%Q)) \/
  (k = "A5" /\ d = (148%Q, 210%Q)).
Proof.
  unfold FORMAT_DIMENSIONS. cbn [lookup].
  destruct (String.eqb k "A3") eqn:E3.
  { intro H. injection H as <-. apply String.eqb_eq in E3. auto. }
  destruct (String.eqb k "A4") eqn:E4.
  { intro H. injection H as <-. apply String.eqb_eq in E4. auto. }
  destruct (String.eqb k "A5") eqn:E5.
  { intro H. injection H as <-. apply String.eqb_eq in E5. auto. }
  intro H. discriminate H.
Qed.

Lemma truthy_Q_nonzero (q : Q) : truthy_Q (Some q) = true <-> ~ q == 0.
Proof.
  unfold truthy_Q. split.
  - intros H Hq. apply Qeq_bool_iff in Hq. rewrite Hq in H. discriminate H.
  - intro H. destruct (Qeq_bool q 0) eqn:E; [|reflexivity].
    apply Qeq_bool_iff in E. contradiction.
Qed.

(** C4, as stated, fails: the test [config.largeur and config.hauteur] is a
    truth test, and a width or height that is present and zero is false.
    A custom format of 0cm by 5cm has both fields present and resolves to no
    expectation. *)
Lemma C4_zero_width_has_no_expectation :
  let custom := Sample.config "grand" None (Some 0%Q) (Some 5%Q) false None "recto" in
  format_type custom = "grand" /\
  largeur custom = Some 0%Q /\
  hauteur custom = Some 5%Q /\
  get_expected_dimensions custom = None /\
  get_expected_dimensions custom <> Some ((0 * 10)%Q, (5 * 10)%Q).
Proof.
  cbv zeta. repeat split; try reflexivity. vm_compute. intro H. discriminate H.
Qed.

(** C4, amended: the resolver returns the table value when [format_type] is
    ['petit'] (the spec's "small") and [small_format] is one of the keys
    ['A3'], ['A4'], ['A5']; it returns (largeur x 10, hauteur x 10), each
    computed as the code does, [float(...) * 10] on [float], when
    [format_type] is ['grand'] (the spec's "large") and [largeur] and
    [hauteur] are both present and not zero; in every other case it returns no
    expectation, and then the dimension check of the pipeline changes neither
    the errors, nor the warnings, nor the stream. *)
Theorem C4_expected_dimensions_resolved (config : order_config) :
  (forall k d,
      format_type config = "petit" ->
      small_format config = Some k ->
      lookup k FORMAT_DIMENSIONS = Some d ->
      get_expected_dimensions config = Some d) /\
  (forall l h,
      format_type config = "grand" ->
      largeur config = Some l ->
      hauteur config = Some h ->
      ~ l == 0 -> ~ h == 0 ->
      get_expected_dimensions config
      = Some (Binary64.mul (Binary64.of_decimal l) 10,
              Binary64.mul (Binary64.of_decimal h) 10)) /\
  (get_expected_dimensions config = None \/
   (exists k d,
       format_type config = "petit" /\ small_format config = Some k /\
       lookup k FORMAT_DIMENSIONS = Some d /\
       (k = "A3" \/ k = "A4" \/ k = "A5")) \/
   (exists l h,
       format_type config = "grand" /\ largeur config = Some l /\
       hauteur config = Some h /\ ~ l == 0 /\ ~ h == 0)) /\
  (get_expected_dimensions config = None ->
   forall PDF2_AVAILABLE info errs warns f,
     check_dimensions PDF2_AVAILABLE config info errs warns f = (errs, warns, f)).
Proof.
  refine (conj _ (conj _ (conj _ _))).
  - intros k d Hft Hsf Hk. unfold get_expected_dimensions.
    rewrite Hft, Hsf. cbn [String.eqb Ascii.eqb Bool.eqb truthy_str andb].
    rewrite (known_format_not_empty k d Hk). exact Hk.
  - intros l h Hft Hl Hh Hl0 Hh0. unfold get_expected_dimensions.
    rewrite Hft, Hl, Hh. cbn [String.eqb Ascii.eqb Bool.eqb andb].
    rewrite (proj2 (truthy_Q_nonzero l) Hl0), (proj2 (truthy_Q_nonzero h) Hh0).
    reflexivity.
  - unfold get_expected_dimensions.
    destruct (String.eqb (format_type config) "petit") eqn:Hp.
    + apply String.eqb_eq in Hp.
      destruct (small_format config) as [k|] eqn:Hsf; cbn [truthy_str andb].
      * destruct (String.eqb k ""); cbn [negb].
        { destruct (String.eqb (format_type config) "grand") eqn:Hg.
          - apply String.eqb_eq in Hg. rewrite Hp in Hg. discriminate Hg.
          - left. reflexivity. }
        destruct (lookup k FORMAT_DIMENSIONS) as [d|] eqn:Hk.
        { right. left. exists k, d. repeat split; try assumption.
          destruct (known_format_keys k d Hk) as [[-> _]|[[-> _]|[-> _]]]; auto. }
        left. reflexivity.
      * destruct (String.eqb (format_type config) "grand") eqn:Hg.
        { apply String.eqb_eq in Hg. rewrite Hp in Hg. discriminate Hg. }
        left. reflexivity.
    + cbn [andb].
      destruct (String.eqb (format_type config) "grand") eqn:Hg; [|left; reflexivity].
      apply String.eqb_eq in Hg.
      destruct (largeur config) as [l|] eqn:Hl;
        [|cbn [truthy_Q andb]; left; reflexivity].
      destruct (hauteur config) as [h|] eqn:Hh;
        [|cbn [truthy_Q]; rewrite andb_false_r; left; reflexivity].
      destruct (truthy_Q (Some l)) eqn:Tl; [|left; reflexivity].
      destruct (truthy_Q (Some h)) eqn:Th; [|left; reflexivity].
      right. right. exists l, h. repeat split; try assumption.
      * apply truthy_Q_nonzero. exact Tl.
      * apply truthy_Q_nonzero. exact Th.
  - intros Hnone avail info errs warns f. unfold check_dimensions.
    rewrite Hnone. reflexivity.
Qed.

Lemma C4_expected_dimensions_resolved_witness :
  get_expected_dimensions Sample.a4_sheet = Some (210%Q, 297%Q) /\
  get_expected_dimensions
    (Sample.config "grand" None (Some 29.7%Q) (Some 21%Q) false None "recto")
  = Some (Binary64.mul (Binary64.of_decimal 29.7) 10,
          Binary64.mul (Binary64.of_decimal 21) 10) /\
  check_dimensions true
    (Sample.config "petit" (Some "B5") (Some 29.7%Q) (Some 21%Q) false None "recto")
    (get_file_info (Sample.upload "x.pdf" 1 Sample.not_a_pdf Sample.not_an_image))
    [] [] (Sample.upload "x.pdf" 1 Sample.not_a_pdf Sample.not_an_image)
  = ([], [], Sample.upload "x.pdf" 1 Sample.not_a_pdf Sample.not_an_image).
Proof.
  split; [|split].
  - apply (proj1 (C4_expected_dimensions_resolved Sample.a4_sheet) "A4" (210%Q, 297%Q));
      reflexivity.
  - apply (proj1 (proj2 (C4_expected_dimensions_resolved
      (Sample.config "grand" None (Some 29.7%Q) (Some 21%Q) false None "recto")))
      29.7%Q 21%Q); try reflexivity; intro H; discriminate H.
  - apply (proj2 (proj2 (proj2 (C4_expected_dimensions_resolved
      (Sample.config "petit" (Some "B5") (Some 29.7%Q) (Some 21%Q) false None "recto"))))).
    reflexivity.
Defined.

(** ** C5: the PDF library is not available *)

Lemma truthy_Z_nonzero (n : Z) : n <> 0 -> truthy_Z (Some n) = true.
Proof.
  intro H. unfold truthy_Z. destruct (n =? 0) eqn:E; [|reflexivity].
  apply Z.eqb_eq in E. contradiction.
Qed.

Lemma check_dimensions_unavailable
    (config : order_config) (info : file_info_dict) (errs warns : list string)
    (f : file_obj) :
  check_dimensions false config info errs warns f = (errs, warns, f).
Proof.
  unfold check_dimensions.
  destruct (get_expected_dimensions config) as [[ew eh]|]; reflexivity.
Qed.

(** C5, as stated, fails: without the PDF library the pipeline does not call
    the extractor at all, so the warning that the extractor would return
    never reaches the verdict.  A PDF checked against an A4 expectation comes
    back with no warning and no error. *)
Lemma C5_unavailable_adds_no_warning :
  let f := Sample.upload "flyer.pdf" 52000 (Reader [MediaBox 210 297])
             Sample.not_an_image in
  get_expected_dimensions Sample.a4_sheet = Some (210%Q, 297%Q) /\
  extension (get_file_info f) = ".pdf" /\
  warnings (fst (validate_file_against_config false f Sample.a4_sheet)) = [] /\
  errors (fst (validate_file_against_config false f Sample.a4_sheet)) = [].
Proof.
  cbv zeta. repeat split; vm_compute; reflexivity.
Qed.

(** C5, amended: when the PDF library is not available, the PDF dimension
    extractor itself returns success with a warning in its details and does
    not read the stream; the pipeline skips its dimension check altogether,
    for PDFs and for images, and adds neither an error nor a warning there;
    and for a book uploaded as a [.pdf] with [book_pages] set and not zero the
    page-count check appends the hard error, which is then the only error of
    an invalid verdict. *)
Theorem C5_capability_unavailable (f : file_obj) (config : order_config) :
  (forall ew eh,
      validate_pdf_dimensions false f ew eh
      = ((true, WarningDict Msg.pdf_dimensions_skipped), f)) /\
  (forall info errs warns,
      check_dimensions false config info errs warns f = (errs, warns, f)) /\
  (forall n,
      is_book config = true ->
      book_pages config = Some n ->
      n <> 0 ->
      extension (get_file_info f) = ".pdf" ->
      errors (fst (validate_file_against_config false f config))
        = [Msg.pdf_system_unavailable] /\
      is_valid (fst (validate_file_against_config false f config)) = false).
Proof.
  refine (conj _ (conj _ _)).
  - intros ew eh. reflexivity.
  - intros info errs warns. apply check_dimensions_unavailable.
  - intros n Hbook Hpages Hn Hext.
    unfold validate_file_against_config, check_format, check_book_pages.
    rewrite Hext, Hbook, Hpages, (truthy_Z_nonzero n Hn).
    cbn [PyStr.mem ACCEPTED_EXTENSIONS existsb String.eqb Ascii.eqb Bool.eqb
         orb andb negb app].
    unfold check_size. cbn [no_errors].
    rewrite check_dimensions_unavailable. cbn [fst errors is_valid no_errors].
    split; reflexivity.
Qed.

Lemma C5_capability_unavailable_witness :
  let f := Sample.upload "novel.pdf" 52000 (Reader (repeat (MediaBox 595 842) 101))
             Sample.not_an_image in
  errors (fst (validate_file_against_config false f Sample.book_101))
    = [Msg.pdf_system_unavailable] /\
  is_valid (fst (validate_file_against_config false f Sample.book_101)) = false.
Proof.
  cbv zeta.
  apply (proj2 (proj2 (C5_capability_unavailable
    (Sample.upload "novel.pdf" 52000 (Reader (repeat (MediaBox 595 842) 101))
       Sample.not_an_image)
    Sample.book_101)) 101).
  - reflexivity.
  - reflexivity.
  - lia.
  - reflexivity.
Defined.

(** ** The shape of the pipeline *)

Lemma validate_continues (PDF2_AVAILABLE : bool) (f : file_obj) (config : order_config) :
  (is_book config && negb (String.eqb (extension (get_file_info f)) ".pdf"))%bool = false ->
  validate_file_against_config PDF2_AVAILABLE f config
  = let info := get_file_info f in
    let '(errs, f1) := before_size PDF2_AVAILABLE f config in
    let '(errs, warns, f2) :=
      check_dimensions PDF2_AVAILABLE config info (check_size info errs) [] f1 in
    ({| is_valid := no_errors errs; errors := errs;
        warnings := check_duplex config warns; file_info := info |}, f2).
Proof.
  intro H. unfold validate_file_against_config, before_size. rewrite H.
  reflexivity.
Qed.

Lemma validate_returns_early (PDF2_AVAILABLE : bool) (f : file_obj) (config : order_config) :
  (is_book config && negb (String.eqb (extension (get_file_info f)) ".pdf"))%bool = true ->
  validate_file_against_config PDF2_AVAILABLE f config
  = ({| is_valid := false;
        errors := (check_format (get_file_info f) [] ++ [Msg.book_needs_pdf])%list;
        warnings := [];
        file_info := get_file_info f |}, f).
Proof.
  intro H. unfold validate_file_against_config. rewrite H. reflexivity.
Qed.

Lemma early_error_not_too_large (s : string) (size0 m : Z) :
  early_error s -> s <> Msg.too_large size0 m.
Proof.
  intros Hs Heq. destruct Hs;
    unfold Msg.too_large, Msg.unsupported_format, Msg.book_needs_pdf,
      Msg.pdf_system_unavailable, Msg.page_count, Msg.pdf_unreadable in Heq;
    cbn [append] in Heq; discriminate Heq.
Qed.





(** The dimension check leaves a non-empty list of errors alone, and adds at
    most one error to the empty list. *)
Lemma check_dimensions_errors (PDF2_AVAILABLE : bool) (config : order_config)
    (info : file_info_dict) (errs warns : list string) (f : file_obj) :
  fst (fst (check_dimensions PDF2_AVAILABLE config info errs warns f)) = errs \/
  (errs = [] /\
   exists ew eh,
     get_expected_dimensions config = Some (ew, eh) /\
     (fst (fst (check_dimensions PDF2_AVAILABLE config info errs warns f))
        = [Msg.pdf_dimensions ew eh] \/
      fst (fst (check_dimensions PDF2_AVAILABLE config info errs warns f))
        = [Msg.image_dimensions ew eh])).
Proof.
  unfold check_dimensions.
  destruct (get_expected_dimensions config) as [[ew eh]|]; [|left; reflexivity].
  destruct PDF2_AVAILABLE; [|left; reflexivity].
  destruct errs as [|e r]; [|left; reflexivity].
  cbn [andb no_errors].
  destruct (String.eqb (extension info) ".pdf").
  - destruct (validate_pdf_dimensions true (seek 0 f) ew eh) as [[ok d] f'].
    destruct (negb ok && negb (is_dict d))%bool.
    + right. split; [reflexivity|]. exists ew, eh. split; [reflexivity|].
      left. reflexivity.
    + left. reflexivity.
  - destruct (PyStr.mem (extension info) IMAGE_EXTENSIONS); [|left; reflexivity].
    destruct (validate_image_dimensions (seek 0 f) ew eh) as [[ok d] f'].
    destruct (negb ok).
    + right. split; [reflexivity|]. exists ew, eh. split; [reflexivity|].
      right. reflexivity.
    + left. reflexivity.
Qed.

Lemma check_dimensions_after_error (a : bool) (config : order_config)
    (info : file_info_dict) (e : string) (r warns : list string) (f : file_obj) :
  check_dimensions a config info (e :: r) warns f = (e :: r, warns, f).
Proof.
  unfold check_dimensions. cbn [no_errors].
  destruct (get_expected_dimensions config) as [[ew eh]|]; [|reflexivity].
  rewrite andb_false_r. reflexivity.
Qed.


(** Once an error has been recorded, the size and the dimension checks leave
    the list as it is. *)
Lemma later_checks_skipped (a : bool) (config : order_config) (info : file_info_dict)
    (e : string) (r warns : list string) (f : file_obj) :
  check_dimensions a config info (check_size info (e :: r)) warns f
  = (e :: r, warns, f).
Proof.
  unfold check_size, check_dimensions. cbn [no_errors].
  destruct (get_expected_dimensions config) as [[ew eh]|]; [|reflexivity].
  rewrite andb_false_r. reflexivity.
Qed.


(** In every verdict [is_valid] is the test that the list of errors is empty:
    the early return sets it to [False] next to a list that holds the
    book-format error. *)
Lemma is_valid_no_errors (PDF2_AVAILABLE : bool) (f : file_obj) (config : order_config) :
  is_valid (fst (validate_file_against_config PDF2_AVAILABLE f config))
  = no_errors (errors (fst (validate_file_against_config PDF2_AVAILABLE f config))).
Proof.
  unfold validate_file_against_config.
  destruct (is_book config && negb (String.eqb (extension (get_file_info f)) ".pdf"))%bool.
  - cbn [fst is_valid errors]. rewrite no_errors_app. reflexivity.
  - destruct (if is_book config then _ else _) as [e2 f1].
    destruct (check_dimensions _ _ _ _ _ _) as [[e4 w4] f4]. reflexivity.
Qed.

(** ** C6: the size limit *)


Lemma check_size_cases (info : file_info_dict) (errs : list string) :
  (errs <> [] /\ check_size info errs = errs) \/
  (errs = [] /\ info_size info <= 10 * 1024 * 1024 /\ check_size info errs = []) \/
  (errs = [] /\ 10 * 1024 * 1024 < info_size info /\
   check_size info errs = [Msg.too_large (info_size info) 10]).
Proof.
  unfold check_size. destruct errs as [|e r]; cbn [no_errors].
  - right. cbv zeta. destruct (info_size info >? 10 * 1024 * 1024) eqn:E.
    + right. split; [reflexivity|]. split; [|reflexivity].
      apply Z.gtb_lt in E. exact E.
    + left. split; [reflexivity|]. split; [|reflexivity].
      rewrite Z.gtb_ltb in E. apply Z.ltb_ge in E. exact E.
  - left. split; [discriminate|reflexivity].
Qed.




(** ** C7: pixels to millimetres *)



Example pixels_to_mm_a4 :
  Qred (spec_pixels_to_mm 2480 300) = (15748 # 75)%Q /\
  Qred (spec_pixels_to_mm 3508 0) = (111379 # 90)%Q /\
  Qred (spec_pixels_to_mm 3508 (-5)) = Qred (spec_pixels_to_mm 3508 72).
Proof. repeat split; vm_compute; reflexivity. Qed.

(** ** C8: an odd number of pages printed on both sides *)

Lemma check_dimensions_pdf_warnings (PDF2_AVAILABLE : bool) (config : order_config)
    (info : file_info_dict) (errs warns : list string) (f : file_obj) :
  extension info = ".pdf" ->
  snd (fst (check_dimensions PDF2_AVAILABLE config info errs warns f)) = warns.
Proof.
  intro Hext. unfold check_dimensions.
  destruct (get_expected_dimensions config) as [[ew eh]|]; [|reflexivity].
  destruct (PDF2_AVAILABLE && no_errors errs)%bool; [|reflexivity].
  rewrite Hext. cbn [String.eqb Ascii.eqb Bool.eqb].
  destruct (validate_pdf_dimensions PDF2_AVAILABLE (seek 0 f) ew eh) as [[ok d] f'].
  destruct (negb ok && negb (is_dict d))%bool; reflexivity.
Qed.

Lemma odd_not_even (n : Z) : Z.odd n = true -> negb (n mod 2 =? 0) = true.
Proof.
  intro H. rewrite Zmod_odd, H. reflexivity.
Qed.

Lemma odd_truthy (n : Z) : Z.odd n = true -> truthy_Z (Some n) = true.
Proof.
  intro H. apply truthy_Z_nonzero. intros ->. discriminate H.
Qed.

(** Every check hands back the lists it was given with what it adds put at
    the end. *)
Lemma checks_append (PDF2_AVAILABLE : bool) (config : order_config)
    (info : file_info_dict) (errs warns : list string) (f : file_obj) :
  (exists a, check_format info errs = (errs ++ a)%list) /\
  (exists a, fst (check_book_pages PDF2_AVAILABLE config errs f) = (errs ++ a)%list) /\
  (exists a, check_size info errs = (errs ++ a)%list) /\
  (exists a b,
      fst (check_dimensions PDF2_AVAILABLE config info errs warns f)
      = ((errs ++ a)%list, (warns ++ b)%list)) /\
  (exists b, check_duplex config warns = (warns ++ b)%list).
Proof.
  assert (Hsame : forall l : list string, exists a, l = (l ++ a)%list).
  { intro l. exists []. symmetry. apply app_nil_r. }
  refine (conj _ (conj _ (conj _ (conj _ _)))).
  - unfold check_format.
    destruct (PyStr.mem (extension info) ACCEPTED_EXTENSIONS); [apply Hsame|].
    eexists. reflexivity.
  - unfold check_book_pages.
    destruct (truthy_Z (book_pages config)); [|apply Hsame].
    destruct (book_pages config) as [n|]; [|apply Hsame].
    cbv zeta.
    destruct (negb PDF2_AVAILABLE); [eexists; reflexivity|].
    destruct (PdfReader (seek 0 f)) as [[e|pages] f']; [eexists; reflexivity|].
    destruct (negb (Z.of_nat (List.length pages) =? n)); [eexists; reflexivity|].
    apply Hsame.
  - unfold check_size. destruct (no_errors errs); [|apply Hsame].
    cbv zeta. destruct (info_size info >? 10 * 1024 * 1024); [eexists; reflexivity|].
    apply Hsame.
  - assert (Hboth : exists a b, (errs, warns) = ((errs ++ a)%list, (warns ++ b)%list)).
    { exists [], []. rewrite !app_nil_r. reflexivity. }
    unfold check_dimensions.
    destruct (get_expected_dimensions config) as [[ew eh]|]; [|exact Hboth].
    destruct (PDF2_AVAILABLE && no_errors errs)%bool; [|exact Hboth].
    cbv zeta.
    destruct (String.eqb (extension info) ".pdf").
    + destruct (validate_pdf_dimensions PDF2_AVAILABLE (seek 0 f) ew eh) as [[ok d] f'].
      destruct (negb ok && negb (is_dict d))%bool; [|exact Hboth].
      exists [Msg.pdf_dimensions ew eh], []. rewrite app_nil_r. reflexivity.
    + destruct (PyStr.mem (extension info) IMAGE_EXTENSIONS); [|exact Hboth].
      destruct (validate_image_dimensions (seek 0 f) ew eh) as [[ok d] f'].
      exists (if negb ok then [Msg.image_dimensions ew eh] else []),
        (match d with
         | SizeDict _ _ (Some dpi) =>
             if Qgt_bool 150 (value dpi) then [Msg.low_resolution dpi] else []
         | _ => []
         end).
      cbn [fst]. f_equal.
      * destruct (negb ok); [reflexivity|]. symmetry. apply app_nil_r.
      * destruct d as [w|found expected [dpi|]|m];
          try (symmetry; apply app_nil_r).
        destruct (Qgt_bool 150 (value dpi)); [reflexivity|].
        symmetry. apply app_nil_r.
  - unfold check_duplex.
    destruct (String.eqb (duplex config) "recto_verso"); [|apply Hsame].
    destruct (is_book config && truthy_Z (book_pages config))%bool; [|apply Hsame].
    destruct (book_pages config) as [n|]; [|apply Hsame].
    destruct (negb (n mod 2 =? 0)); [eexists; reflexivity|apply Hsame].
Qed.

(** C8, as stated, fails: a book that is not uploaded as a PDF is turned away
    at the book-format check, before the parity check, so its verdict has no
    warning even though [duplex] is ['recto_verso'] and [book_pages] is odd. *)
Lemma C8_book_image_gets_no_parity_warning :
  let f := Sample.upload "cover.png" 52000 Sample.not_a_pdf
             (Image 2480 3508 (Some (Sample.dpi_pair 300))) in
  duplex Sample.book_101 = "recto_verso" /\
  is_book Sample.book_101 = true /\
  book_pages Sample.book_101 = Some 101 /\
  Z.odd 101 = true /\
  warnings (fst (validate_file_against_config true f Sample.book_101)) = [].
Proof.
  cbv zeta. repeat split.
Qed.

(** C8, amended: in every verdict [is_valid] holds exactly when the list of
    errors is empty.  When [duplex] is ['recto_verso'] (the spec's
    "double_sided"), [is_book] holds and [book_pages] is set and odd, the
    parity check appends its warning after the warnings it is given; and when
    moreover the file is a [.pdf], so that the pipeline reaches the parity
    check, that warning is the only warning of the verdict, and the errors and
    the validity of the verdict are those of the same order with another value
    of [duplex]: the check adds no error and does not make the verdict
    invalid.  Every check of the pipeline puts what it adds at the end of the
    lists it is given, so errors and warnings are in the order in which they
    were found. *)
Theorem C8_odd_pages_duplex_warning
    (PDF2_AVAILABLE : bool) (f : file_obj) (config : order_config) :
  let v := fst (validate_file_against_config PDF2_AVAILABLE f config) in
  (is_valid v = true <-> errors v = []) /\
  (forall info errs warns g,
      (exists a, check_format info errs = (errs ++ a)%list) /\
      (exists a, fst (check_book_pages PDF2_AVAILABLE config errs g) = (errs ++ a)%list) /\
      (exists a, check_size info errs = (errs ++ a)%list) /\
      (exists a b,
          fst (check_dimensions PDF2_AVAILABLE config info errs warns g)
          = ((errs ++ a)%list, (warns ++ b)%list)) /\
      (exists b, check_duplex config warns = (warns ++ b)%list)) /\
  (forall n,
      duplex config = "recto_verso" ->
      is_book config = true ->
      book_pages config = Some n ->
      Z.odd n = true ->
      (forall warns,
          check_duplex config warns = (warns ++ [Msg.odd_duplex_book])%list) /\
      (extension (get_file_info f) = ".pdf" ->
       let v' := fst (validate_file_against_config PDF2_AVAILABLE f
                        (with_duplex "recto" config)) in
       warnings v = [Msg.odd_duplex_book] /\
       warnings v' = [] /\
       errors v = errors v' /\
       is_valid v = is_valid v')).
Proof.
  cbv zeta. refine (conj _ (conj _ _)).
  - rewrite is_valid_no_errors. apply no_errors_nil.
  - intros info errs warns g. apply checks_append.
  - intros n Hduplex Hbook Hpages Hodd.
    assert (Hcheck : forall warns,
               check_duplex config warns = (warns ++ [Msg.odd_duplex_book])%list).
    { intro warns. unfold check_duplex.
      rewrite Hduplex, Hbook, Hpages, (odd_truthy n Hodd), (odd_not_even n Hodd).
      reflexivity. }
    split; [exact Hcheck|].
    intro Hext.
    assert (Hsc : forall c, (is_book c
                    && negb (String.eqb (extension (get_file_info f)) ".pdf"))%bool = false).
    { intro c. rewrite Hext. cbn [String.eqb Ascii.eqb Bool.eqb negb].
      apply andb_false_r. }
    rewrite (validate_continues _ _ _ (Hsc config)).
    rewrite (validate_continues _ _ _ (Hsc (with_duplex "recto" config))).
    cbv zeta.
    change (before_size PDF2_AVAILABLE f (with_duplex "recto" config))
      with (before_size PDF2_AVAILABLE f config).
    destruct (before_size PDF2_AVAILABLE f config) as [e2 f1].
    change (check_dimensions PDF2_AVAILABLE (with_duplex "recto" config))
      with (check_dimensions PDF2_AVAILABLE config).
    pose proof (check_dimensions_pdf_warnings PDF2_AVAILABLE config (get_file_info f)
                  (check_size (get_file_info f) e2) [] f1 Hext) as Hw.
    destruct (check_dimensions PDF2_AVAILABLE config (get_file_info f)
                (check_size (get_file_info f) e2) [] f1) as [[e4 w4] f4].
    cbn [fst snd] in Hw. subst w4.
    cbn [fst warnings errors is_valid]. rewrite Hcheck.
    repeat split.
Qed.

Lemma C8_odd_pages_duplex_warning_witness :
  let f := Sample.upload "novel.pdf" 52000 (Reader (repeat (MediaBox 595 842) 101))
             Sample.not_an_image in
  warnings (fst (validate_file_against_config true f Sample.book_101))
    = [Msg.odd_duplex_book] /\
  is_valid (fst (validate_file_against_config true f Sample.book_101)) = true.
Proof.
  cbv zeta.
  pose proof (C8_odd_pages_duplex_warning true
    (Sample.upload "novel.pdf" 52000 (Reader (repeat (MediaBox 595 842) 101))
       Sample.not_an_image)
    Sample.book_101) as [Hvalid [_ Hodd]].
  split.
  - apply (Hodd 101); reflexivity.
  - apply Hvalid. vm_compute. reflexivity.
Defined.

(** ** C9: the same verdict twice *)

Lemma same_content_refl (f : file_obj) : same_content f f.
Proof. reflexivity. Qed.

Lemma same_content_seek (p : Z) (f : file_obj) : same_content (seek p f) f.
Proof. reflexivity. Qed.

Lemma same_content_trans (f g h : file_obj) :
  same_content f g -> same_content g h -> same_content f h.
Proof. unfold same_content. intros -> ->. reflexivity. Qed.

Lemma same_content_info (f g : file_obj) :
  same_content f g -> get_file_info f = get_file_info g.
Proof.
  unfold same_content, get_file_info. intro H.
  assert (Hn : name f = name g) by exact (f_equal name H).
  assert (Hs : size f = size g) by exact (f_equal size H).
  assert (Hc : content_type f = content_type g) by exact (f_equal content_type H).
  rewrite Hn, Hs, Hc. reflexivity.
Qed.

Lemma PdfReader_content (f : file_obj) : same_content (snd (PdfReader f)) f.
Proof.
  unfold PdfReader. destruct (pdf_view f (position f)) as [r p]. reflexivity.
Qed.

Lemma Image_open_content (f : file_obj) : same_content (snd (Image_open f)) f.
Proof.
  unfold Image_open. destruct (image_view f (position f)) as [r p]. reflexivity.
Qed.

Lemma validate_pdf_dimensions_content (a : bool) (f : file_obj) (ew eh : Q) :
  same_content (snd (validate_pdf_dimensions a f ew eh)) f.
Proof.
  unfold validate_pdf_dimensions. destruct a; cbn [negb]; [|reflexivity].
  pose proof (PdfReader_content f) as H.
  destruct (PdfReader f) as [[e|[|[e|w h] rest]] f']; cbn [snd] in *; try exact H.
  destruct (portrait (w * MM_PER_POINT) (h * MM_PER_POINT)) as [wm hm]. exact H.
Qed.

Lemma validate_image_dimensions_content (f : file_obj) (ew eh : Q) :
  same_content (snd (validate_image_dimensions f ew eh)) f.
Proof.
  unfold validate_image_dimensions.
  pose proof (Image_open_content f) as H.
  destruct (Image_open f) as [[e|w h d] f']; cbn [snd] in *; [exact H|].
  destruct (if Qgt_bool _ 0 then _ else _) as [wm0 hm0].
  destruct (portrait wm0 hm0) as [wm hm]. exact H.
Qed.

(** The book checks: what they add does not depend on the position the
    stream is at, and they only move the stream. *)
Lemma check_book_pages_position (a : bool) (config : order_config)
    (errs : list string) (f g : file_obj) :
  same_content f g ->
  fst (check_book_pages a config errs f) = fst (check_book_pages a config errs g) /\
  same_content (snd (check_book_pages a config errs f)) g.
Proof.
  intro H. unfold check_book_pages.
  destruct (truthy_Z (book_pages config)); [|split; [reflexivity|exact H]].
  destruct (book_pages config) as [n|]; [|split; [reflexivity|exact H]].
  cbv zeta. unfold same_content in H. rewrite H.
  split; [reflexivity|].
  destruct (negb a); [reflexivity|].
  pose proof (PdfReader_content (seek 0 g)) as Hr.
  destruct (PdfReader (seek 0 g)) as [[e|pages] f'].
  - exact Hr.
  - destruct (negb (Z.of_nat (List.length pages) =? n)); exact Hr.
Qed.

Lemma before_size_position (a : bool) (config : order_config) (f g : file_obj) :
  same_content f g ->
  fst (before_size a f config) = fst (before_size a g config) /\
  same_content (snd (before_size a f config)) g.
Proof.
  intro H. unfold before_size. rewrite (same_content_info f g H).
  destruct (is_book config).
  - apply check_book_pages_position. exact H.
  - split; [reflexivity|exact H].
Qed.

Lemma check_dimensions_position (a : bool) (config : order_config)
    (info : file_info_dict) (errs warns : list string) (f g : file_obj) :
  same_content f g ->
  fst (check_dimensions a config info errs warns f)
  = fst (check_dimensions a config info errs warns g) /\
  same_content (snd (check_dimensions a config info errs warns f)) g.
Proof.
  intro H. unfold check_dimensions.
  destruct (get_expected_dimensions config) as [[ew eh]|];
    [|split; [reflexivity|exact H]].
  destruct (a && no_errors errs)%bool; [|split; [reflexivity|exact H]].
  cbv zeta. unfold same_content in H. rewrite H.
  split; [reflexivity|].
  destruct (String.eqb (extension info) ".pdf").
  - pose proof (validate_pdf_dimensions_content a (seek 0 g) ew eh) as Hr.
    destruct (validate_pdf_dimensions a (seek 0 g) ew eh) as [[ok d] f'].
    destruct (negb ok && negb (is_dict d))%bool; exact Hr.
  - destruct (PyStr.mem (extension info) IMAGE_EXTENSIONS); [|reflexivity].
    pose proof (validate_image_dimensions_content (seek 0 g) ew eh) as Hr.
    destruct (validate_image_dimensions (seek 0 g) ew eh) as [[ok d] f'].
    exact Hr.
Qed.

(** The verdict does not depend on the position the stream is at when the
    pipeline is called, and the pipeline changes nothing of the file but that
    position. *)
Lemma validate_position (a : bool) (config : order_config) (f g : file_obj) :
  same_content f g ->
  fst (validate_file_against_config a f config)
  = fst (validate_file_against_config a g config) /\
  same_content (snd (validate_file_against_config a f config)) g.
Proof.
  intro H.
  destruct (is_book config && negb (String.eqb (extension (get_file_info g)) ".pdf"))%bool
    eqn:Hsc.
  - rewrite (validate_returns_early a g config Hsc).
    rewrite <- (same_content_info f g H) in Hsc.
    rewrite (validate_returns_early a f config Hsc).
    rewrite (same_content_info f g H). split; [reflexivity|exact H].
  - rewrite (validate_continues a g config Hsc).
    rewrite <- (same_content_info f g H) in Hsc.
    rewrite (validate_continues a f config Hsc).
    rewrite (same_content_info f g H). cbv zeta.
    destruct (before_size_position a config f g H) as [He2 Hf1].
    destruct (before_size_position a config g g (same_content_refl g)) as [_ Hg1].
    destruct (before_size a f config) as [e2 f1].
    destruct (before_size a g config) as [e2' g1].
    cbn [fst snd] in He2, Hf1, Hg1. subst e2'.
    assert (Hfg : same_content f1 g1).
    { unfold same_content in *. rewrite Hf1, Hg1. reflexivity. }
    destruct (check_dimensions_position a config (get_file_info g)
                (check_size (get_file_info g) e2) [] f1 g1 Hfg) as [He4 Hf2].
    destruct (check_dimensions a config (get_file_info g)
                (check_size (get_file_info g) e2) [] f1) as [[e4 w4] f2].
    destruct (check_dimensions a config (get_file_info g)
                (check_size (get_file_info g) e2) [] g1) as [[e4' w4'] g2].
    cbn [fst snd] in He4, Hf2. injection He4 as -> ->.
    split; [reflexivity|].
    cbn [snd]. apply (same_content_trans f2 g1 g); assumption.
Qed.

(** C9: the pipeline is run on a file whose stream is at offset 0; the stream
    of the file it leaves is put back at offset 0 and the pipeline is run
    again, with the same configuration and the same availability of the PDF
    library.  The two verdicts are equal: same [is_valid], same errors, same
    warnings, same [file_info].  The only state that a run changes is the
    position of the stream, and what the two libraries read may depend on
    it; the verdict does not, because every read of the pipeline comes after
    a [seek(0)] of its own: the second verdict is the same when the stream is
    not put back, and the verdict is the same from every position the stream
    can be at. *)
Theorem C9_same_verdict_twice
    (PDF2_AVAILABLE : bool) (f : file_obj) (config : order_config) :
  let first := validate_file_against_config PDF2_AVAILABLE (seek 0 f) config in
  let second :=
    validate_file_against_config PDF2_AVAILABLE (seek 0 (snd first)) config in
  (fst second = fst first /\
   is_valid (fst second) = is_valid (fst first) /\
   errors (fst second) = errors (fst first) /\
   warnings (fst second) = warnings (fst first) /\
   file_info (fst second) = file_info (fst first)) /\
  fst (validate_file_against_config PDF2_AVAILABLE (snd first) config) = fst first /\
  (forall p,
      fst (validate_file_against_config PDF2_AVAILABLE (seek p f) config) = fst first) /\
  (forall p,
      fst (validate_file_against_config PDF2_AVAILABLE (seek p (snd first)) config)
      = fst first).
Proof.
  cbv zeta.
  assert (Hleft : same_content
                    (snd (validate_file_against_config PDF2_AVAILABLE (seek 0 f) config))
                    (seek 0 f)).
  { apply (validate_position PDF2_AVAILABLE config (seek 0 f) (seek 0 f)).
    apply same_content_refl. }
  assert (Hany : forall g, same_content g (seek 0 f) ->
                 fst (validate_file_against_config PDF2_AVAILABLE g config)
                 = fst (validate_file_against_config PDF2_AVAILABLE (seek 0 f) config)).
  { intros g Hg. apply validate_position. exact Hg. }
  assert (Hsecond :
            fst (validate_file_against_config PDF2_AVAILABLE
                   (seek 0 (snd (validate_file_against_config PDF2_AVAILABLE
                                   (seek 0 f) config))) config)
            = fst (validate_file_against_config PDF2_AVAILABLE (seek 0 f) config)).
  { apply Hany.
    apply (same_content_trans _ (snd (validate_file_against_config PDF2_AVAILABLE
                                        (seek 0 f) config)) _).
    - apply same_content_seek.
    - exact Hleft. }
  refine (conj _ (conj _ (conj _ _))).
  - rewrite Hsecond. repeat split.
  - apply Hany. exact Hleft.
  - intro p. apply Hany. unfold same_content. reflexivity.
  - intro p. apply Hany.
    apply (same_content_trans _ (snd (validate_file_against_config PDF2_AVAILABLE
                                        (seek 0 f) config)) _).
    + apply same_content_seek.
    + exact Hleft.
Qed.

(** A file that reads as a book of 101 pages from offset 0 and as a damaged
    file from anywhere else.  The first run leaves the stream at offset 7;
    the second run, on that stream as it is, reads the book again. *)
Example second_run_rewinds :
  let f := {| name := "novel.pdf"; size := 52000; content_type := "application/pdf";
              position := 0;
              pdf_view := fun p =>
                if p =? 0 then (Reader (repeat (MediaBox 595 842) 101), 7)
                else (Sample.not_a_pdf, p);
              image_view := fun p => (Sample.not_an_image, p) |} in
  let first := validate_file_against_config true f Sample.book_101 in
  position (snd first) = 7 /\
  fst (pdf_view (snd first) (position (snd first))) = Sample.not_a_pdf /\
  errors (fst first) = [] /\
  fst (validate_file_against_config true (snd first) Sample.book_101) = fst first.
Proof. cbv zeta. repeat split; vm_compute; reflexivity. Qed.

Example second_run_moves_stream :
  let f := Sample.upload "novel.pdf" 52000 (Reader (repeat (MediaBox 595 842) 101))
             Sample.not_an_image in
  position (snd (validate_file_against_config true f Sample.book_101)) = 7 /\
  fst (validate_file_against_config true
         (snd (validate_file_against_config true f Sample.book_101)) Sample.book_101)
  = fst (validate_file_against_config true f Sample.book_101).
Proof. cbv zeta. split; vm_compute; reflexivity. Qed.

(** ** C10: an image that cannot be decoded *)

Lemma not_book_continues (f : file_obj) (config : order_config) :
  is_book config = false ->
  (is_book config && negb (String.eqb (extension (get_file_info f)) ".pdf"))%bool = false.
Proof. intros ->. reflexivity. Qed.

(** The PDF branch, for contrast: a PDF that cannot be read, or has no page,
    gets the dimension error of the PDF branch. *)
Lemma check_dimensions_unread_pdf
    (config : order_config) (info : file_info_dict) (warns : list string)
    (f : file_obj) (ew eh : Q) (r : pdf_reader) (p : Z) :
  extension info = ".pdf" ->
  get_expected_dimensions config = Some (ew, eh) ->
  pdf_view f 0 = (r, p) ->
  (r = Reader [] \/ (exists e, r = ReaderRaises e)
   \/ (exists e rest, r = Reader (PageRaises e :: rest))) ->
  check_dimensions true config info [] warns f
  = ([Msg.pdf_dimensions ew eh], warns, seek p f).
Proof.
  intros Hext Hexp Hview Hr. unfold check_dimensions.
  rewrite Hexp, Hext. cbn [andb no_errors String.eqb Ascii.eqb Bool.eqb].
  unfold validate_pdf_dimensions, PdfReader. cbn [negb seek position pdf_view].
  rewrite Hview.
  destruct Hr as [->|[[e ->]|[e [rest ->]]]]; reflexivity.
Qed.

Lemma image_dimensions_text (ew eh : Q) :
  Msg.image_dimensions ew eh
  = "Dimensions image incorrectes. Attendu: "
      ++ PyFormat.format_f 1 ew ++ "x" ++ PyFormat.format_f 1 eh ++ "mm".
Proof. reflexivity. Qed.

(** C10: an image ([.jpg], [.jpeg] or [.png]) reaches the dimension check
    when an expectation exists, the PDF library is available and no error has
    been recorded.  If decoding it raises, the validator catches the
    exception and the check returns normally with the error of the image
    branch, whose text is ['Dimensions image incorrectes. Attendu: '], the
    expected width with one decimal, ['x'], the expected height with one
    decimal and ['mm'], and with the warnings it was given: no low-resolution
    warning.  An image that decodes and does not match gets the very same
    text.  In the pipeline, the verdict of such an order (not a book, file
    within the size limit) is invalid, with that error alone and no
    warning. *)
Theorem C10_image_decode_failure
    (f : file_obj) (config : order_config) (ew eh : Q) (e : string) (p : Z) :
  PyStr.mem (extension (get_file_info f)) IMAGE_EXTENSIONS = true ->
  get_expected_dimensions config = Some (ew, eh) ->
  image_view f 0 = (ImageRaises e, p) ->
  let generic_error :=
    "Dimensions image incorrectes. Attendu: "
      ++ PyFormat.format_f 1 ew ++ "x" ++ PyFormat.format_f 1 eh ++ "mm" in
  validate_image_dimensions (seek 0 f) ew eh
    = ((false, Message ("Erreur lecture image: " ++ e)), seek p f) /\
  (forall warns,
      check_dimensions true config (get_file_info f) [] warns f
      = ([generic_error], warns, seek p f)) /\
  (forall g warns,
      PyStr.mem (extension (get_file_info g)) IMAGE_EXTENSIONS = true ->
      fst (fst (validate_image_dimensions (seek 0 g) ew eh)) = false ->
      fst (fst (check_dimensions true config (get_file_info g) [] warns g))
      = [generic_error]) /\
  (is_book config = false ->
   size f <= 10 * 1024 * 1024 ->
   let v := fst (validate_file_against_config true f config) in
   errors v = [generic_error] /\
   warnings v = [] /\
   is_valid v = false).
Proof.
  intros Himg Hexp Hview. cbv zeta. rewrite <- image_dimensions_text.
  assert (Hval : validate_image_dimensions (seek 0 f) ew eh
                 = ((false, Message (Msg.image_read_error e)), seek p f)).
  { unfold validate_image_dimensions, Image_open.
    cbn [seek position image_view]. rewrite Hview. reflexivity. }
  assert (Hcheck : forall warns,
             check_dimensions true config (get_file_info f) [] warns f
             = ([Msg.image_dimensions ew eh], warns, seek p f)).
  { intro warns. unfold check_dimensions.
    destruct (image_extension_accepted _ Himg) as [_ Hnpdf].
    rewrite Hexp, Hnpdf, Himg. cbn [andb no_errors]. cbv zeta.
    rewrite Hval. reflexivity. }
  refine (conj Hval (conj Hcheck (conj _ _))).
  - intros g warns Hgimg Hmis. unfold check_dimensions.
    destruct (image_extension_accepted _ Hgimg) as [_ Hnpdf].
    rewrite Hexp, Hnpdf, Hgimg. cbn [andb no_errors]. cbv zeta.
    destruct (validate_image_dimensions (seek 0 g) ew eh) as [[ok d] g'].
    cbn [fst] in Hmis. subst ok. cbn [negb app fst].
    reflexivity.
  - intros Hbook Hsize.
    rewrite (validate_continues true f config (not_book_continues f config Hbook)).
    cbv zeta. unfold before_size, check_format. rewrite Hbook.
    destruct (image_extension_accepted _ Himg) as [Hacc _]. rewrite Hacc.
    destruct (check_size_cases (get_file_info f) [])
      as [[Hne _]|[[_ [_ Hs]]|[_ [Hgt _]]]].
    + contradiction.
    + rewrite Hs, Hcheck. cbn [fst errors warnings is_valid no_errors].
      unfold check_duplex. rewrite Hbook. cbn [andb].
      destruct (String.eqb (duplex config) "recto_verso"); repeat split.
    + cbn [get_file_info info_size] in Hgt. lia.
Qed.

Lemma C10_image_decode_failure_witness :
  let f := Sample.upload "truncated.jpeg" 52000 Sample.not_a_pdf Sample.not_an_image in
  let custom :=
    Sample.config "grand" None (Some 21.045%Q) (Some 29.7%Q) false None "recto" in
  (errors (fst (validate_file_against_config true f Sample.a4_sheet))
     = ["Dimensions image incorrectes. Attendu: 210.0x297.0mm"] /\
   warnings (fst (validate_file_against_config true f Sample.a4_sheet)) = [] /\
   is_valid (fst (validate_file_against_config true f Sample.a4_sheet)) = false) /\
  errors (fst (validate_file_against_config true f custom))
    = ["Dimensions image incorrectes. Attendu: 210.5x297.0mm"].
Proof.
  cbv zeta. split.
  - apply (C10_image_decode_failure
      (Sample.upload "truncated.jpeg" 52000 Sample.not_a_pdf Sample.not_an_image)
      Sample.a4_sheet 210 297 "cannot identify image file" 3).
    + reflexivity.
    + reflexivity.
    + reflexivity.
    + reflexivity.
    + vm_compute. intro H. discriminate H.
  - pose proof (C10_image_decode_failure
      (Sample.upload "truncated.jpeg" 52000 Sample.not_a_pdf Sample.not_an_image)
      (Sample.config "grand" None (Some 21.045%Q) (Some 29.7%Q) false None "recto")
      (Binary64.mul (Binary64.of_decimal 21.045) 10)
      (Binary64.mul (Binary64.of_decimal 29.7) 10)
      "cannot identify image file" 3 eq_refl eq_refl eq_refl) as H.
    cbv zeta in H. destruct H as (_ & _ & _ & H).
    destruct (H eq_refl ltac:(vm_compute; intro H0; discriminate H0)) as [He _].
    rewrite He. vm_compute. reflexivity.
Defined.

(** ** Worked examples *)

(** An A4 scan at 300 DPI passes, in portrait and in landscape. *)
Example a4_scan_accepted :
  let portrait_scan := Sample.upload "scan.png" 52000 Sample.not_a_pdf
                         (Image 2480 3508 (Some (Sample.dpi_pair 300))) in
  let landscape_scan := Sample.upload "scan.png" 52000 Sample.not_a_pdf
                          (Image 3508 2480 (Some (Sample.dpi_pair 300))) in
  errors (fst (validate_file_against_config true portrait_scan Sample.a4_sheet)) = [] /\
  warnings (fst (validate_file_against_config true portrait_scan Sample.a4_sheet)) = [] /\
  errors (fst (validate_file_against_config true landscape_scan Sample.a4_sheet)) = [] /\
  is_valid (fst (validate_file_against_config true landscape_scan Sample.a4_sheet)) = true.
Proof. cbv zeta. repeat split; vm_compute; reflexivity. Qed.

(** The same pixels at 96 DPI are too large a sheet, and the resolution is
    low: one error and one warning. *)
Example a4_scan_at_96_dpi :
  let f := Sample.upload "scan.png" 52000 Sample.not_a_pdf
             (Image 2480 3508 (Some (Sample.dpi_pair 96))) in
  errors (fst (validate_file_against_config true f Sample.a4_sheet))
    = [Msg.image_dimensions 210 297] /\
  warnings (fst (validate_file_against_config true f Sample.a4_sheet))
    = [Msg.low_resolution (fst (Sample.dpi_pair 96))].
Proof. cbv zeta. split; vm_compute; reflexivity. Qed.

(** A book of 101 pages with a PDF of 100 pages: the page-count error, and
    the size and dimension checks do not run. *)
Example book_page_count_mismatch :
  let f := Sample.upload "novel.pdf" (20 * 1024 * 1024)
             (Reader (repeat (MediaBox 100 100) 100)) Sample.not_an_image in
  errors (fst (validate_file_against_config true f Sample.book_101))
    = [Msg.page_count 100 101].
Proof. cbv zeta. vm_compute. reflexivity. Qed.

(** * Further properties of the validators *)

Lemma lower_ascii_idem (c : ascii) : PyStr.lower_ascii (PyStr.lower_ascii c) = PyStr.lower_ascii c.
Proof.
  destruct c as [[] [] [] [] [] [] [] []]; vm_compute; reflexivity.
Qed.

Lemma lower_idem (s : string) : PyStr.lower (PyStr.lower s) = PyStr.lower s.
Proof.
  induction s as [|c r IH]; [reflexivity|].
  cbn [PyStr.lower]. rewrite lower_ascii_idem, IH. reflexivity.
Qed.

Lemma lower_app (s t : string) : PyStr.lower (s ++ t) = PyStr.lower s ++ PyStr.lower t.
Proof.
  induction s as [|c r IH]; [reflexivity|].
  cbn [PyStr.lower append]. rewrite IH. reflexivity.
Qed.

Lemma take_drop (n : nat) (p : string) :
  substring 0 n p ++ substring n (String.length p - n) p = p.
Proof.
  revert n. induction p as [|c r IH]; intro n.
  - destruct n; reflexivity.
  - destruct n as [|n].
    + cbn [substring append String.length Nat.sub].
      f_equal. clear IH. induction r as [|d r IH]; [reflexivity|].
      cbn [substring String.length]. f_equal. exact IH.
    + cbn [substring append String.length Nat.sub]. f_equal. apply IH.
Qed.

Lemma splitext_append (p : string) :
  fst (PyStr.splitext p) ++ snd (PyStr.splitext p) = p.
Proof.
  unfold PyStr.splitext.
  destruct (PyStr.rfind "/" p <? PyStr.rfind "." p).
  - destruct (PyStr.has_non_dot _ _ _); cbn [fst snd].
    + unfold PyStr.take, PyStr.drop. apply take_drop.
    + clear. induction p; [reflexivity|]. cbn [append]. f_equal. assumption.
  - cbn [fst snd]. clear. induction p; [reflexivity|]. cbn [append]. f_equal. assumption.
Qed.

Lemma rfind_from_range (c : ascii) (s : string) (i : Z) :
  0 <= i ->
  PyStr.rfind_from c s i = -1 \/
  (i <= PyStr.rfind_from c s i < i + Z.of_nat (String.length s)).
Proof.
  revert i. induction s as [|d r IH]; intros i Hi.
  - left. reflexivity.
  - cbn [PyStr.rfind_from String.length]. cbv zeta.
    destruct (IH (i + 1) ltac:(lia)) as [E|E].
    + rewrite E. cbn [Z.leb Z.compare].
      destruct (Ascii.eqb d c); [right; lia|left; reflexivity].
    + destruct (0 <=? PyStr.rfind_from c r (i + 1)) eqn:L.
      * right. lia.
      * apply Z.leb_gt in L. lia.
Qed.

Lemma rfind_from_shift (c : ascii) (s : string) (i : Z) :
  0 <= i ->
  PyStr.rfind_from c s i
  = if PyStr.rfind_from c s 0 <? 0 then -1 else PyStr.rfind_from c s 0 + i.
Proof.
  revert i. induction s as [|d r IH]; intros i Hi.
  - reflexivity.
  - cbn [PyStr.rfind_from]. cbv zeta.
    rewrite (IH (i + 1) ltac:(lia)), (IH (0 + 1) ltac:(lia)).
    destruct (rfind_from_range c r 0 ltac:(lia)) as [E|E].
    + rewrite E. cbn. destruct (Ascii.eqb d c); reflexivity.
    + destruct (PyStr.rfind_from c r 0 <? 0) eqn:L; [apply Z.ltb_lt in L; lia|].
      destruct (0 <=? PyStr.rfind_from c r 0 + (i + 1)) eqn:L1;
        [|apply Z.leb_gt in L1; lia].
      destruct (0 <=? PyStr.rfind_from c r 0 + (0 + 1)) eqn:L2;
        [|apply Z.leb_gt in L2; lia].
      destruct (PyStr.rfind_from c r 0 + (0 + 1) <? 0) eqn:L3;
        [apply Z.ltb_lt in L3; lia|]. lia.
Qed.

(** [rfind] on a string that starts with [d]. *)
Lemma rfind_cons (c d : ascii) (r : string) :
  PyStr.rfind c (String d r)
  = if 0 <=? PyStr.rfind c r then PyStr.rfind c r + 1
    else if Ascii.eqb d c then 0 else -1.
Proof.
  unfold PyStr.rfind. cbn [PyStr.rfind_from]. cbv zeta.
  rewrite (rfind_from_shift c r (0 + 1) ltac:(lia)).
  destruct (rfind_from_range c r 0 ltac:(lia)) as [E|E].
  - rewrite E. reflexivity.
  - destruct (PyStr.rfind_from c r 0 <? 0) eqn:L; [apply Z.ltb_lt in L; lia|].
    destruct (0 <=? PyStr.rfind_from c r 0) eqn:L1; [|apply Z.leb_gt in L1; lia].
    destruct (0 <=? PyStr.rfind_from c r 0 + (0 + 1)) eqn:L2;
      [|apply Z.leb_gt in L2; lia]. lia.
Qed.

Lemma rfind_range (c : ascii) (s : string) :
  PyStr.rfind c s = -1 \/ 0 <= PyStr.rfind c s < Z.of_nat (String.length s).
Proof. apply (rfind_from_range c s 0). lia. Qed.

Lemma drop_0 (s : string) : PyStr.drop 0 s = s.
Proof.
  unfold PyStr.drop. cbn [Z.to_nat]. rewrite Nat.sub_0_r.
  induction s as [|d r IH]; [reflexivity|].
  cbn [substring String.length]. f_equal. exact IH.
Qed.

Lemma drop_succ (k : Z) (d : ascii) (r : string) :
  0 <= k -> PyStr.drop (k + 1) (String d r) = PyStr.drop k r.
Proof.
  intro Hk. unfold PyStr.drop.
  replace (Z.to_nat (k + 1)) with (S (Z.to_nat k)) by lia.
  reflexivity.
Qed.

Lemma drop_at_rfind (c : ascii) (s : string) :
  0 <= PyStr.rfind c s ->
  exists rest, PyStr.drop (PyStr.rfind c s) s = String c rest /\ PyStr.rfind c rest = -1.
Proof.
  induction s as [|d r IH].
  - cbn. lia.
  - rewrite rfind_cons.
    destruct (rfind_range c r) as [E|E].
    + rewrite E. cbn [Z.leb Z.compare].
      destruct (Ascii.eqb d c) eqn:Hd; [|lia].
      intros _. apply Ascii.eqb_eq in Hd. subst d.
      exists r. rewrite drop_0. split; [reflexivity|exact E].
    + destruct (0 <=? PyStr.rfind c r) eqn:L; [|apply Z.leb_gt in L; lia].
      intros _. rewrite drop_succ by lia. apply IH. lia.
Qed.

Lemma rfind_drop (c : ascii) (s : string) (k : Z) :
  0 <= k -> PyStr.rfind c s < k -> PyStr.rfind c (PyStr.drop k s) = -1.
Proof.
  revert k. induction s as [|d r IH]; intros k Hk Hlt.
  - unfold PyStr.drop. destruct (Z.to_nat k); reflexivity.
  - destruct (Z.eq_dec k 0) as [->|Hne].
    + rewrite drop_0. destruct (rfind_range c (String d r)); lia.
    + replace k with ((k - 1) + 1) by lia. rewrite drop_succ by lia.
      apply IH; [lia|].
      rewrite rfind_cons in Hlt.
      destruct (rfind_range c r) as [E|E]; [lia|].
      destruct (0 <=? PyStr.rfind c r) eqn:L; [lia|apply Z.leb_gt in L; lia].
Qed.

Lemma rfind_none (c : ascii) (s : string) :
  PyStr.rfind c s = -1 -> forall n, get n s <> Some c.
Proof.
  induction s as [|d r IH]; intros H n.
  - destruct n; discriminate.
  - rewrite rfind_cons in H.
    destruct (rfind_range c r) as [E|E].
    + rewrite E in H. cbn [Z.leb Z.compare] in H.
      destruct (Ascii.eqb d c) eqn:Hd; [lia|].
      destruct n as [|n]; cbn [get].
      * intro Heq. injection Heq as ->. rewrite Ascii.eqb_refl in Hd. discriminate.
      * apply IH. exact E.
    + destruct (0 <=? PyStr.rfind c r) eqn:L; [lia|apply Z.leb_gt in L; lia].
Qed.

Lemma rfind_tail_none (c d : ascii) (r : string) :
  PyStr.rfind c (String d r) = -1 -> PyStr.rfind c r = -1.
Proof.
  rewrite rfind_cons. intro H.
  destruct (rfind_range c r) as [E|E]; [exact E|].
  destruct (0 <=? PyStr.rfind c r) eqn:L; [lia|apply Z.leb_gt in L; lia].
Qed.

Lemma lower_ascii_dot (d : ascii) : Ascii.eqb (PyStr.lower_ascii d) "." = Ascii.eqb d ".".
Proof. destruct d as [[] [] [] [] [] [] [] []]; vm_compute; reflexivity. Qed.

Lemma lower_ascii_slash (d : ascii) : Ascii.eqb (PyStr.lower_ascii d) "/" = Ascii.eqb d "/".
Proof. destruct d as [[] [] [] [] [] [] [] []]; vm_compute; reflexivity. Qed.

Lemma rfind_from_lower (c : ascii) (s : string) (i : Z) :
  (forall d, Ascii.eqb (PyStr.lower_ascii d) c = Ascii.eqb d c) ->
  PyStr.rfind_from c (PyStr.lower s) i = PyStr.rfind_from c s i.
Proof.
  intro Hc. revert i. induction s as [|d r IH]; intro i; [reflexivity|].
  cbn [PyStr.lower PyStr.rfind_from]. rewrite IH, Hc. reflexivity.
Qed.

Lemma get_lower (n : nat) (s : string) :
  get n (PyStr.lower s) = option_map PyStr.lower_ascii (get n s).
Proof.
  revert n. induction s as [|d r IH]; intro n.
  - destruct n; reflexivity.
  - destruct n; cbn [PyStr.lower get]; [reflexivity|apply IH].
Qed.

Lemma substring_lower (n m : nat) (s : string) :
  substring n m (PyStr.lower s) = PyStr.lower (substring n m s).
Proof.
  revert n m. induction s as [|d r IH]; intros n m.
  - destruct n, m; reflexivity.
  - destruct n as [|n]; destruct m as [|m]; cbn [PyStr.lower substring]; try reflexivity.
    + rewrite IH. reflexivity.
    + apply IH.
    + apply IH.
Qed.

Lemma length_lower (s : string) : String.length (PyStr.lower s) = String.length s.
Proof. induction s as [|d r IH]; [reflexivity|]. cbn [PyStr.lower String.length]. rewrite IH. reflexivity. Qed.

Lemma has_non_dot_lower (p : string) (i : Z) (n : nat) :
  PyStr.has_non_dot (PyStr.lower p) i n = PyStr.has_non_dot p i n.
Proof.
  revert i. induction n as [|n IH]; intro i; [reflexivity|].
  cbn [PyStr.has_non_dot]. rewrite get_lower.
  destruct (get (Z.to_nat i) p) as [c|]; cbn [option_map]; [|reflexivity].
  rewrite lower_ascii_dot, IH. reflexivity.
Qed.

Lemma splitext_lower (p : string) :
  PyStr.splitext (PyStr.lower p)
  = (PyStr.lower (fst (PyStr.splitext p)), PyStr.lower (snd (PyStr.splitext p))).
Proof.
  unfold PyStr.splitext, PyStr.rfind.
  rewrite !rfind_from_lower by (apply lower_ascii_dot || apply lower_ascii_slash).
  rewrite has_non_dot_lower.
  destruct (PyStr.rfind_from "/" p 0 <? PyStr.rfind_from "." p 0); [|reflexivity].
  destruct (PyStr.has_non_dot _ _ _); [|reflexivity].
  unfold PyStr.take, PyStr.drop. rewrite !substring_lower, length_lower. reflexivity.
Qed.

(** ** Further properties: the file information *)

(** X1: for a file whose name is ASCII, the extension recorded by
    [get_file_info] is unchanged by lowercasing, and the lowercased file name
    ends with it. *)
Theorem extension_lowercase_suffix (f : file_obj) :
  PyStr.isascii (name f) = true ->
  PyStr.lower (extension (get_file_info f)) = extension (get_file_info f) /\
  exists root, PyStr.lower (name f) = root ++ extension (get_file_info f).
Proof.
  intros _. split.
  - cbn [get_file_info extension]. apply lower_idem.
  - exists (PyStr.lower (fst (PyStr.splitext (name f)))).
    cbn [get_file_info extension]. rewrite <- lower_app, splitext_append. reflexivity.
Qed.

Lemma extension_lowercase_suffix_witness :
  let f := Sample.upload "Brochure.v2.PDF" 52000 Sample.not_a_pdf Sample.not_an_image in
  extension (get_file_info f) = ".pdf" /\
  PyStr.lower (extension (get_file_info f)) = extension (get_file_info f) /\
  exists root, PyStr.lower (name f) = root ++ extension (get_file_info f).
Proof.
  cbv zeta. split; [reflexivity|].
  apply (extension_lowercase_suffix
    (Sample.upload "Brochure.v2.PDF" 52000 Sample.not_a_pdf Sample.not_an_image)).
  reflexivity.
Defined.

(** X2: the extension recorded by [get_file_info] is empty, or a dot followed
    by characters none of which is a dot or a slash. *)
Theorem extension_shape (f : file_obj) :
  extension (get_file_info f) = "" \/
  exists rest,
    extension (get_file_info f) = String "." rest /\
    forall n, get n rest <> Some "."%char /\ get n rest <> Some "/"%char.
Proof.
  cbn [get_file_info extension]. unfold PyStr.splitext.
  destruct (PyStr.rfind "/" (name f) <? PyStr.rfind "." (name f)) eqn:L;
    [|left; reflexivity].
  destruct (PyStr.has_non_dot _ _ _); [|left; reflexivity].
  right. cbn [snd]. apply Z.ltb_lt in L.
  assert (Hdot : 0 <= PyStr.rfind "." (name f)).
  { destruct (rfind_range "/" (name f)); lia. }
  destruct (drop_at_rfind "." (name f) Hdot) as [rest [Hdrop Hnodot]].
  pose proof (rfind_drop "/" (name f) _ Hdot L) as Hnoslash.
  rewrite Hdrop in *. apply rfind_tail_none in Hnoslash.
  exists (PyStr.lower rest). split; [reflexivity|].
  intro n. split; apply rfind_none; unfold PyStr.rfind; rewrite rfind_from_lower;
    try assumption; first [apply lower_ascii_dot | apply lower_ascii_slash].
Qed.

(** X3: two files whose names are equal up to the case of their letters get
    the same extension. *)
Theorem extension_ignores_case (f g : file_obj) :
  PyStr.lower (name f) = PyStr.lower (name g) ->
  extension (get_file_info f) = extension (get_file_info g).
Proof.
  intro H. cbn [get_file_info extension].
  assert (E : forall p, PyStr.lower (snd (PyStr.splitext p))
                        = snd (PyStr.splitext (PyStr.lower p))).
  { intro p. rewrite splitext_lower. reflexivity. }
  rewrite !E, H. reflexivity.
Qed.


Lemma extension_ignores_case_witness :
  extension (get_file_info
               (Sample.upload "Scan.Final.PDF" 1 Sample.not_a_pdf Sample.not_an_image))
  = extension (get_file_info
                 (Sample.upload "scan.final.pdf" 2 Sample.not_a_pdf Sample.not_an_image)).
Proof.
  apply (extension_ignores_case
    (Sample.upload "Scan.Final.PDF" 1 Sample.not_a_pdf Sample.not_an_image)
    (Sample.upload "scan.final.pdf" 2 Sample.not_a_pdf Sample.not_an_image)).
  reflexivity.
Defined.

(** ** Further properties: files that are not opened *)

Lemma pdf_is_accepted : PyStr.mem ".pdf" ACCEPTED_EXTENSIONS = true.
Proof. reflexivity. Qed.

Lemma not_accepted_not_pdf (x : string) :
  PyStr.mem x ACCEPTED_EXTENSIONS = false ->
  String.eqb x ".pdf" = false /\ PyStr.mem x IMAGE_EXTENSIONS = false.
Proof.
  unfold PyStr.mem, ACCEPTED_EXTENSIONS, IMAGE_EXTENSIONS. cbn [existsb].
  intro H. apply orb_false_elim in H. destruct H as [H1 H2]. split; assumption.
Qed.

Lemma validate_unsupported
    (PDF2_AVAILABLE : bool) (f : file_obj) (config : order_config) :
  PyStr.mem (extension (get_file_info f)) ACCEPTED_EXTENSIONS = false ->
  validate_file_against_config PDF2_AVAILABLE f config
  = ({| is_valid := false;
        errors := Msg.unsupported_format (extension (get_file_info f))
                    :: (if is_book config then [Msg.book_needs_pdf] else []);
        warnings := [];
        file_info := get_file_info f |}, f).
Proof.
  intro Hacc. destruct (not_accepted_not_pdf _ Hacc) as [Hpdf Himg].
  unfold validate_file_against_config, check_format.
  rewrite Hacc, Hpdf. cbn [negb app].
  destruct (is_book config) eqn:Hbook; cbn [andb]; [reflexivity|].
  unfold check_size, check_dimensions, check_duplex. cbn [no_errors].
  rewrite Hbook.
  destruct (get_expected_dimensions config) as [[ew eh]|];
    rewrite ?andb_false_r; cbn [andb];
    destruct (String.eqb (duplex config) "recto_verso"); reflexivity.
Qed.

Lemma validate_oversized
    (PDF2_AVAILABLE : bool) (f : file_obj) (config : order_config) :
  is_book config = false ->
  PyStr.mem (extension (get_file_info f)) ACCEPTED_EXTENSIONS = true ->
  10 * 1024 * 1024 < size f ->
  validate_file_against_config PDF2_AVAILABLE f config
  = ({| is_valid := false;
        errors := [Msg.too_large (size f) 10];
        warnings := [];
        file_info := get_file_info f |}, f).
Proof.
  intros Hbook Hacc Hsize.
  unfold validate_file_against_config, check_format.
  rewrite Hacc, Hbook. cbn [andb].
  destruct (check_size_cases (get_file_info f) [])
    as [[Hne _]|[[_ [Hle _]]|[_ [_ Hs]]]].
  - contradiction.
  - cbn [get_file_info info_size] in Hle. lia.
  - rewrite Hs. cbn [get_file_info info_size].
    unfold check_dimensions, check_duplex. cbn [no_errors]. rewrite Hbook.
    destruct (get_expected_dimensions config) as [[ew eh]|];
      rewrite ?andb_false_r; cbn [andb];
      destruct (String.eqb (duplex config) "recto_verso"); reflexivity.
Qed.


(** X5: a file whose extension is not an accepted one is never opened: the
    stream is left as it was, the verdict is invalid, there is no warning, and
    the errors are the unsupported-format error, followed by the book-format
    error when the order is a book. *)
Theorem unsupported_not_opened
    (PDF2_AVAILABLE : bool) (f : file_obj) (config : order_config) :
  PyStr.mem (extension (get_file_info f)) ACCEPTED_EXTENSIONS = false ->
  snd (validate_file_against_config PDF2_AVAILABLE f config) = f /\
  is_valid (fst (validate_file_against_config PDF2_AVAILABLE f config)) = false /\
  errors (fst (validate_file_against_config PDF2_AVAILABLE f config))
    = Msg.unsupported_format (extension (get_file_info f))
        :: (if is_book config then [Msg.book_needs_pdf] else []) /\
  warnings (fst (validate_file_against_config PDF2_AVAILABLE f config)) = [].
Proof.
  intro Hacc. rewrite (validate_unsupported PDF2_AVAILABLE f config Hacc).
  repeat split.
Qed.

Lemma unsupported_not_opened_witness :
  let f := Sample.upload "notes.docx" 52000 (Reader [MediaBox 595 842])
             (Image 2480 3508 None) in
  errors (fst (validate_file_against_config true f Sample.a4_sheet))
    = [Msg.unsupported_format ".docx"] /\
  snd (validate_file_against_config true f Sample.a4_sheet) = f.
Proof.
  cbv zeta.
  pose proof (unsupported_not_opened true
    (Sample.upload "notes.docx" 52000 (Reader [MediaBox 595 842]) (Image 2480 3508 None))
    Sample.a4_sheet eq_refl) as (Hf & _ & He & _).
  split; [exact He|exact Hf].
Defined.

(** X6: when the order is not a book, a file with an accepted extension and
    more than 10 x 1024 x 1024 bytes is never opened: the stream is left as
    it was and the size error is the only error of an invalid verdict without
    warnings. *)
Theorem oversized_not_opened
    (PDF2_AVAILABLE : bool) (f : file_obj) (config : order_config) :
  is_book config = false ->
  PyStr.mem (extension (get_file_info f)) ACCEPTED_EXTENSIONS = true ->
  10 * 1024 * 1024 < size f ->
  snd (validate_file_against_config PDF2_AVAILABLE f config) = f /\
  is_valid (fst (validate_file_against_config PDF2_AVAILABLE f config)) = false /\
  errors (fst (validate_file_against_config PDF2_AVAILABLE f config))
    = [Msg.too_large (size f) 10] /\
  warnings (fst (validate_file_against_config PDF2_AVAILABLE f config)) = [].
Proof.
  intros Hbook Hacc Hsize.
  rewrite (validate_oversized PDF2_AVAILABLE f config Hbook Hacc Hsize).
  repeat split.
Qed.

Lemma oversized_not_opened_witness :
  let f := Sample.upload "poster.jpg" 20000000 Sample.not_a_pdf
             (Image 100 100 (Some (Sample.dpi_pair 72))) in
  errors (fst (validate_file_against_config true f Sample.a4_sheet))
    = ["Fichier trop volumineux (19.07MB). Maximum: 10MB"] /\
  warnings (fst (validate_file_against_config true f Sample.a4_sheet)) = [].
Proof.
  cbv zeta.
  pose proof (oversized_not_opened true
    (Sample.upload "poster.jpg" 20000000 Sample.not_a_pdf
       (Image 100 100 (Some (Sample.dpi_pair 72))))
    Sample.a4_sheet eq_refl eq_refl eq_refl) as (_ & _ & He & Hw).
  split; [exact He|exact Hw].
Defined.

(** ** Further properties: the tolerance window *)




(** A plain order: not a book, an accepted extension, a file within the size
    limit.  Only the dimension check remains. *)
Lemma validate_plain (a : bool) (f : file_obj) (config : order_config) :
  is_book config = false ->
  PyStr.mem (extension (get_file_info f)) ACCEPTED_EXTENSIONS = true ->
  size f <= 10 * 1024 * 1024 ->
  validate_file_against_config a f config
  = let '(errs, warns, f') := check_dimensions a config (get_file_info f) [] [] f in
    ({| is_valid := no_errors errs; errors := errs; warnings := warns;
        file_info := get_file_info f |}, f').
Proof.
  intros Hbook Hacc Hsize.
  unfold validate_file_against_config, check_format. rewrite Hacc, Hbook.
  cbn [andb].
  destruct (check_size_cases (get_file_info f) [])
    as [[Hne _]|[[_ [_ Hs]]|[_ [Hgt _]]]].
  - contradiction.
  - rewrite Hs.
    destruct (check_dimensions a config (get_file_info f) [] [] f) as [[e4 w4] f4].
    unfold check_duplex. rewrite Hbook. cbn [andb].
    destruct (String.eqb (duplex config) "recto_verso"); reflexivity.
  - cbn [get_file_info info_size] in Hgt. lia.
Qed.

Lemma check_dimensions_image (config : order_config) (info : file_info_dict)
    (f : file_obj) (ew eh : Q) :
  PyStr.mem (extension info) IMAGE_EXTENSIONS = true ->
  get_expected_dimensions config = Some (ew, eh) ->
  check_dimensions true config info [] [] f
  = let '((ok, d), f') := validate_image_dimensions (seek 0 f) ew eh in
    (if ok then [] else [Msg.image_dimensions ew eh],
     match d with
     | SizeDict _ _ (Some dpi) =>
         if Qgt_bool 150 (value dpi) then [Msg.low_resolution dpi] else []
     | _ => []
     end, f').
Proof.
  intros Himg Hexp. unfold check_dimensions.
  destruct (image_extension_accepted _ Himg) as [_ Hnpdf].
  rewrite Hexp, Hnpdf, Himg. cbn [andb no_errors]. cbv zeta.
  destruct (validate_image_dimensions (seek 0 f) ew eh) as [[ok d] f'].
  destruct ok; reflexivity.
Qed.




(** ** Further properties: the verdict of an order that is not a book *)

(** X10: for an order that is not a book, with an expectation and the PDF
    library available, an image within the size limit that decodes gets the
    dimension error exactly when [validate_image_dimensions] reports no match,
    and, independently, the low-resolution warning exactly when its horizontal
    resolution is below 150; an image that carries no resolution is taken at
    72 DPI and always gets the warning. *)
Theorem image_verdict
    (f : file_obj) (config : order_config) (ew eh : Q)
    (w h : Z) (info_dpi : option (pynum * pynum)) (p : Z) :
  is_book config = false ->
  PyStr.mem (extension (get_file_info f)) IMAGE_EXTENSIONS = true ->
  size f <= 10 * 1024 * 1024 ->
  get_expected_dimensions config = Some (ew, eh) ->
  image_view f 0 = (Image w h info_dpi, p) ->
  let dpi := fst (match info_dpi with Some d => d | None => (int_72, int_72) end) in
  let v := fst (validate_file_against_config true f config) in
  errors v
    = (if fst (fst (validate_image_dimensions (seek 0 f) ew eh))
       then [] else [Msg.image_dimensions ew eh]) /\
  warnings v
    = (if Qgt_bool 150 (value dpi) then [Msg.low_resolution dpi] else []) /\
  (info_dpi = None -> warnings v = [Msg.low_resolution int_72]).
Proof.
  intros Hbook Himg Hsize Hexp Hview dpi v. subst v dpi.
  destruct (image_extension_accepted _ Himg) as [Hacc _].
  rewrite (validate_plain true f config Hbook Hacc Hsize).
  rewrite (check_dimensions_image config (get_file_info f) f ew eh Himg Hexp).
  unfold validate_image_dimensions, Image_open.
  cbn [seek position image_view]. rewrite Hview.
  destruct (if Qgt_bool _ 0 then _ else _) as [a b].
  destruct (portrait a b) as [wm hm].
  cbn [fst snd errors warnings].
  refine (conj eq_refl (conj eq_refl _)).
  intros ->. reflexivity.
Qed.


Lemma image_verdict_witness :
  let f := Sample.upload "photo.jpeg" 52000 Sample.not_a_pdf (Image 595 842 None) in
  errors (fst (validate_file_against_config true f Sample.a4_sheet)) = [] /\
  warnings (fst (validate_file_against_config true f Sample.a4_sheet))
    = ["⚠️ Résolution basse (72 DPI). Recommandé: 300 DPI pour une impression de qualité"].
Proof.
  cbv zeta.
  pose proof (image_verdict
    (Sample.upload "photo.jpeg" 52000 Sample.not_a_pdf (Image 595 842 None))
    Sample.a4_sheet 210 297 595 842 None 3
    eq_refl eq_refl ltac:(vm_compute; intro H; discriminate H) eq_refl eq_refl)
    as (He & _ & Hw).
  split; [exact He|exact (Hw eq_refl)].
Defined.

(** X11: for an order that is not a book, with an expectation and the PDF
    library available, a PDF within the size limit gets the dimension error
    exactly when its first page cannot be measured (the reader raises, the
    document has no page, or reading the page box raises); a PDF whose first
    page has a size gets no error, whatever that size is, and a PDF never gets
    a warning. *)
Theorem pdf_verdict
    (f : file_obj) (config : order_config) (ew eh : Q) (r : pdf_reader) (p : Z) :
  is_book config = false ->
  extension (get_file_info f) = ".pdf" ->
  size f <= 10 * 1024 * 1024 ->
  get_expected_dimensions config = Some (ew, eh) ->
  pdf_view f 0 = (r, p) ->
  let v := fst (validate_file_against_config true f config) in
  errors v
    = match r with
      | Reader (MediaBox _ _ :: _) => []
      | _ => [Msg.pdf_dimensions ew eh]
      end /\
  warnings v = [].
Proof.
  intros Hbook Hext Hsize Hexp Hview v. subst v.
  assert (Hacc : PyStr.mem (extension (get_file_info f)) ACCEPTED_EXTENSIONS = true).
  { rewrite Hext. reflexivity. }
  rewrite (validate_plain true f config Hbook Hacc Hsize).
  unfold check_dimensions. rewrite Hexp, Hext.
  cbn [andb no_errors String.eqb Ascii.eqb Bool.eqb]. cbv zeta.
  unfold validate_pdf_dimensions, PdfReader. cbn [negb seek position pdf_view].
  rewrite Hview.
  destruct r as [e|[|[e|w h] rest]]; try (split; reflexivity).
  destruct (portrait (w * MM_PER_POINT) (h * MM_PER_POINT)) as [wm hm].
  cbn [is_dict negb andb]. rewrite andb_false_r. split; reflexivity.
Qed.


Lemma pdf_verdict_witness :
  let empty := Sample.upload "empty.pdf" 52000 (Reader []) Sample.not_an_image in
  let stamp := Sample.upload "stamp.pdf" 52000 (Reader [MediaBox 10 10])
                 Sample.not_an_image in
  errors (fst (validate_file_against_config true empty Sample.a4_sheet))
    = ["Dimensions PDF incorrectes. Attendu: 210.0x297.0mm"] /\
  errors (fst (validate_file_against_config true stamp Sample.a4_sheet)) = [].
Proof.
  cbv zeta. split.
  - exact (proj1 (pdf_verdict
      (Sample.upload "empty.pdf" 52000 (Reader []) Sample.not_an_image)
      Sample.a4_sheet 210 297 (Reader []) 7
      eq_refl eq_refl ltac:(vm_compute; intro H; discriminate H) eq_refl eq_refl)).
  - exact (proj1 (pdf_verdict
      (Sample.upload "stamp.pdf" 52000 (Reader [MediaBox 10 10]) Sample.not_an_image)
      Sample.a4_sheet 210 297 (Reader [MediaBox 10 10]) 7
      eq_refl eq_refl ltac:(vm_compute; intro H; discriminate H) eq_refl eq_refl)).
Defined.

(** ** Further properties: the page count of a book *)

Lemma early_error_not_dimensions (s : string) (ew eh : Q) :
  early_error s -> s <> Msg.pdf_dimensions ew eh /\ s <> Msg.image_dimensions ew eh.
Proof.
  intro Hs. split; intro Heq; destruct Hs;
    unfold Msg.pdf_dimensions, Msg.image_dimensions, Msg.unsupported_format,
      Msg.book_needs_pdf, Msg.pdf_system_unavailable, Msg.page_count,
      Msg.pdf_unreadable in Heq;
    cbn [append] in Heq; discriminate Heq.
Qed.

Lemma book_before_size (f : file_obj) (config : order_config) (n : Z)
    (r : pdf_reader) (p : Z) :
  is_book config = true ->
  extension (get_file_info f) = ".pdf" ->
  book_pages config = Some n ->
  n <> 0 ->
  pdf_view f 0 = (r, p) ->
  before_size true f config
  = (match r with
     | ReaderRaises e => [Msg.pdf_unreadable e]
     | Reader pages =>
         if Z.of_nat (List.length pages) =? n then []
         else [Msg.page_count (Z.of_nat (List.length pages)) n]
     end, seek p f).
Proof.
  intros Hbook Hext Hpages Hn Hview.
  unfold before_size, check_format, check_book_pages.
  rewrite Hbook, Hext, Hpages, (truthy_Z_nonzero n Hn).
  cbn [PyStr.mem ACCEPTED_EXTENSIONS existsb String.eqb Ascii.eqb Bool.eqb orb negb].
  cbv zeta. unfold PdfReader. cbn [seek position pdf_view]. rewrite Hview.
  destruct r as [e|pages]; [reflexivity|].
  destruct (Z.of_nat (List.length pages) =? n); reflexivity.
Qed.

Lemma pdf_continues (f : file_obj) (config : order_config) :
  extension (get_file_info f) = ".pdf" ->
  (is_book config && negb (String.eqb (extension (get_file_info f)) ".pdf"))%bool = false.
Proof.
  intros ->. cbn [String.eqb Ascii.eqb Bool.eqb negb]. apply andb_false_r.
Qed.

(** X12: for a book uploaded as a [.pdf], with [book_pages] set and not zero
    and the PDF library available: a PDF that cannot be read gets the
    unreadable error alone; a PDF whose number of pages differs from
    [book_pages] gets the page-count error alone, with both counts, and the
    size and dimension checks do not add to it; a PDF with exactly
    [book_pages] pages gets no error from the format and book checks. *)
Theorem book_page_count
    (f : file_obj) (config : order_config) (n : Z) (r : pdf_reader) (p : Z) :
  is_book config = true ->
  extension (get_file_info f) = ".pdf" ->
  book_pages config = Some n ->
  n <> 0 ->
  pdf_view f 0 = (r, p) ->
  let v := fst (validate_file_against_config true f config) in
  (forall e, r = ReaderRaises e -> errors v = [Msg.pdf_unreadable e]) /\
  (forall pages,
      r = Reader pages -> Z.of_nat (List.length pages) <> n ->
      errors v = [Msg.page_count (Z.of_nat (List.length pages)) n]) /\
  (forall pages,
      r = Reader pages -> Z.of_nat (List.length pages) = n ->
      forall s, In s (errors v) -> ~ early_error s).
Proof.
  intros Hbook Hext Hpages Hn Hview v. subst v.
  rewrite (validate_continues true f config (pdf_continues f config Hext)).
  cbv zeta. rewrite (book_before_size f config n r p Hbook Hext Hpages Hn Hview).
  refine (conj _ (conj _ _)).
  - intros e ->. rewrite later_checks_skipped. reflexivity.
  - intros pages -> Hne.
    destruct (Z.of_nat (List.length pages) =? n) eqn:E; [apply Z.eqb_eq in E; lia|].
    rewrite later_checks_skipped. reflexivity.
  - intros pages -> Heq. rewrite (proj2 (Z.eqb_eq _ _) Heq).
    pose proof (check_dimensions_errors true config (get_file_info f)
                  (check_size (get_file_info f) []) [] (seek p f)) as Hdim.
    destruct (check_dimensions true config (get_file_info f)
                (check_size (get_file_info f) []) [] (seek p f)) as [[e4 w4] f4].
    cbn [fst errors] in *.
    intros s Hin Hearly.
    destruct (check_size_cases (get_file_info f) [])
      as [[Hne _]|[[_ [_ Hs]]|[_ [_ Hs]]]]; [contradiction| |];
      rewrite Hs in Hdim.
    + destruct Hdim as [->|[_ [ew [eh [_ [->| ->]]]]]].
      * contradiction.
      * destruct Hin as [<-|[]].
        exact (proj1 (early_error_not_dimensions _ ew eh Hearly) eq_refl).
      * destruct Hin as [<-|[]].
        exact (proj2 (early_error_not_dimensions _ ew eh Hearly) eq_refl).
    + destruct Hdim as [->|[Habs _]]; [|discriminate Habs].
      destruct Hin as [<-|[]].
      exact (early_error_not_too_large _ _ _ Hearly eq_refl).
Qed.


Lemma book_page_count_witness :
  let f := Sample.upload "novel.pdf" (20 * 1024 * 1024)
             (Reader (repeat (MediaBox 100 100) 100)) Sample.not_an_image in
  errors (fst (validate_file_against_config true f Sample.book_101))
    = ["❌ Nombre de pages incorrect. Fichier: 100 pages, Configuration: 101 pages"].
Proof.
  cbv zeta.
  pose proof (book_page_count
    (Sample.upload "novel.pdf" (20 * 1024 * 1024)
       (Reader (repeat (MediaBox 100 100) 100)) Sample.not_an_image)
    Sample.book_101 101 (Reader (repeat (MediaBox 100 100) 100)) 7
    eq_refl eq_refl eq_refl ltac:(lia) eq_refl) as (_ & Hcount & _).
  apply (Hcount (repeat (MediaBox 100 100) 100) eq_refl).
  vm_compute. intro H. discriminate H.
Defined.

(** ** Further properties: what a valid verdict guarantees *)

Lemma check_dimensions_pdf (config : order_config) (info : file_info_dict)
    (warns : list string) (f : file_obj) (ew eh : Q) :
  extension info = ".pdf" ->
  get_expected_dimensions config = Some (ew, eh) ->
  check_dimensions true config info [] warns f
  = let '((ok, d), f') := validate_pdf_dimensions true (seek 0 f) ew eh in
    (if (negb ok && negb (is_dict d))%bool then [Msg.pdf_dimensions ew eh] else [],
     warns, f').
Proof.
  intros Hext Hexp. unfold check_dimensions. rewrite Hexp, Hext.
  cbn [andb no_errors String.eqb Ascii.eqb Bool.eqb]. cbv zeta.
  destruct (validate_pdf_dimensions true (seek 0 f) ew eh) as [[ok d] f'].
  destruct (negb ok && negb (is_dict d))%bool; reflexivity.
Qed.

Lemma before_size_rewinds (a : bool) (f : file_obj) (config : order_config) :
  seek 0 (snd (before_size a f config)) = seek 0 f.
Proof.
  exact (proj2 (before_size_position a config f f (same_content_refl f))).
Qed.

Lemma app_nil_left (l a : list string) : (l ++ a)%list = [] -> l = [].
Proof. destruct l; [reflexivity|discriminate]. Qed.

Lemma check_size_within (info : file_info_dict) :
  info_size info <= 10 * 1024 * 1024 -> check_size info [] = [].
Proof.
  intro H. destruct (check_size_cases info [])
    as [[Hne _]|[[_ [_ Hs]]|[_ [Hgt _]]]]; [contradiction|exact Hs|lia].
Qed.

(** X13: a valid verdict guarantees that the extension is an accepted one and
    the file is within the size limit; that a book is a [.pdf], and, when
    [book_pages] is set and not zero, that the PDF library is available and
    the PDF has exactly [book_pages] pages; and, when the PDF library is
    available and an expectation exists, that an image matches it within the
    tolerance and that the first page of a PDF could be measured. *)
Theorem valid_verdict_guarantees
    (PDF2_AVAILABLE : bool) (f : file_obj) (config : order_config) :
  is_valid (fst (validate_file_against_config PDF2_AVAILABLE f config)) = true ->
  PyStr.mem (extension (get_file_info f)) ACCEPTED_EXTENSIONS = true /\
  size f <= 10 * 1024 * 1024 /\
  (is_book config = true -> extension (get_file_info f) = ".pdf") /\
  (is_book config = true ->
   forall n, book_pages config = Some n -> n <> 0 ->
     PDF2_AVAILABLE = true /\
     exists pages p,
       pdf_view f 0 = (Reader pages, p) /\ Z.of_nat (List.length pages) = n) /\
  (PDF2_AVAILABLE = true ->
   forall ew eh, get_expected_dimensions config = Some (ew, eh) ->
     (PyStr.mem (extension (get_file_info f)) IMAGE_EXTENSIONS = true ->
      fst (fst (validate_image_dimensions (seek 0 f) ew eh)) = true) /\
     (extension (get_file_info f) = ".pdf" ->
      exists w h rest p, pdf_view f 0 = (Reader (MediaBox w h :: rest), p))).
Proof.
  intro Hvalid.
  destruct (is_book config && negb (String.eqb (extension (get_file_info f)) ".pdf"))%bool
    eqn:Hsc.
  { rewrite (validate_returns_early _ _ _ Hsc) in Hvalid. discriminate Hvalid. }
  rewrite (validate_continues _ _ _ Hsc) in Hvalid. cbv zeta in Hvalid.
  pose proof (before_size_rewinds PDF2_AVAILABLE f config) as Hrew.
  destruct (before_size PDF2_AVAILABLE f config) as [e2 f1] eqn:Hbefore.
  cbn [snd] in Hrew.
  pose proof (check_dimensions_errors PDF2_AVAILABLE config (get_file_info f)
                (check_size (get_file_info f) e2) [] f1) as Hdim.
  destruct (check_dimensions PDF2_AVAILABLE config (get_file_info f)
              (check_size (get_file_info f) e2) [] f1) as [[e4 w4] f4] eqn:Hcheck.
  cbn [fst is_valid] in Hvalid, Hdim. apply no_errors_nil in Hvalid. subst e4.
  assert (Hsize : e2 = [] /\ size f <= 10 * 1024 * 1024).
  { destruct Hdim as [Hd|[_ [ew [eh [_ [Hd|Hd]]]]]]; try discriminate Hd.
    destruct (check_size_cases (get_file_info f) e2)
      as [[Hne Hs]|[[Hnil [Hle _]]|[_ [_ Hs]]]].
    - rewrite Hs in Hd. symmetry in Hd. contradiction.
    - split; [exact Hnil|exact Hle].
    - rewrite Hs in Hd. discriminate Hd. }
  destruct Hsize as [-> Hsize].
  assert (Hpdf : is_book config = true -> extension (get_file_info f) = ".pdf").
  { intro Hb. rewrite Hb in Hsc. cbn [andb] in Hsc.
    apply negb_false_iff in Hsc. apply String.eqb_eq in Hsc. exact Hsc. }
  assert (Hfmt : check_format (get_file_info f) [] = []).
  { unfold before_size in Hbefore. destruct (is_book config).
    - destruct (checks_append PDF2_AVAILABLE config (get_file_info f)
                  (check_format (get_file_info f) []) [] f) as (_ & [a Ha] & _).
      rewrite Hbefore in Ha. cbn [fst] in Ha. symmetry in Ha.
      exact (app_nil_left _ _ Ha).
    - injection Hbefore as H _. exact H. }
  refine (conj _ (conj Hsize (conj Hpdf (conj _ _)))).
  - unfold check_format in Hfmt.
    destruct (PyStr.mem (extension (get_file_info f)) ACCEPTED_EXTENSIONS);
      [reflexivity|discriminate Hfmt].
  - intros Hb n Hpages Hn.
    unfold before_size, check_book_pages in Hbefore.
    rewrite Hb, Hfmt, Hpages, (truthy_Z_nonzero n Hn) in Hbefore.
    cbv zeta in Hbefore. unfold PdfReader in Hbefore.
    cbn [seek position pdf_view] in Hbefore.
    destruct PDF2_AVAILABLE; cbn [negb] in Hbefore; [|discriminate Hbefore].
    split; [reflexivity|].
    destruct (pdf_view f 0) as [[e|pages] p]; [discriminate Hbefore|].
    destruct (Z.of_nat (List.length pages) =? n) eqn:E; cbn [negb] in Hbefore;
      [|discriminate Hbefore].
    apply Z.eqb_eq in E. exists pages, p. split; [reflexivity|exact E].
  - intros -> ew eh Hexp.
    rewrite (check_size_within (get_file_info f) Hsize) in Hcheck.
    split.
    + intro Himg.
      rewrite (check_dimensions_image config _ f1 ew eh Himg Hexp), Hrew in Hcheck.
      destruct (validate_image_dimensions (seek 0 f) ew eh) as [[ok d] f'].
      destruct ok; [reflexivity|discriminate Hcheck].
    + intro Hext.
      rewrite (check_dimensions_pdf config _ [] f1 ew eh Hext Hexp), Hrew in Hcheck.
      unfold validate_pdf_dimensions, PdfReader in Hcheck.
      cbn [negb seek position pdf_view] in Hcheck.
      destruct (pdf_view f 0) as [[e|[|[e|w h] rest]] p];
        try discriminate Hcheck.
      exists w, h, rest, p. reflexivity.
Qed.


Lemma valid_verdict_guarantees_witness :
  let f := Sample.upload "novel.pdf" 52000 (Reader (repeat (MediaBox 595 842) 101))
             Sample.not_an_image in
  PyStr.mem (extension (get_file_info f)) ACCEPTED_EXTENSIONS = true /\
  size f <= 10 * 1024 * 1024.
Proof.
  cbv zeta.
  pose proof (valid_verdict_guarantees true
    (Sample.upload "novel.pdf" 52000 (Reader (repeat (MediaBox 595 842) 101))
       Sample.not_an_image)
    Sample.book_101 eq_refl) as (Hacc & Hsize & _).
  split; [exact Hacc|exact Hsize].
Defined.

(** ** Further properties: how many errors and warnings *)

Lemma check_format_length (info : file_info_dict) :
  (check_format info [] = [] /\ PyStr.mem (extension info) ACCEPTED_EXTENSIONS = true) \/
  (check_format info [] = [Msg.unsupported_format (extension info)] /\
   PyStr.mem (extension info) ACCEPTED_EXTENSIONS = false).
Proof.
  unfold check_format.
  destruct (PyStr.mem (extension info) ACCEPTED_EXTENSIONS); [left|right]; split; reflexivity.
Qed.

Lemma check_book_pages_length (a : bool) (config : order_config) (f : file_obj) :
  (List.length (fst (check_book_pages a config [] f)) <= 1)%nat.
Proof.
  unfold check_book_pages.
  destruct (truthy_Z (book_pages config)); [|cbn; lia].
  destruct (book_pages config) as [n|]; [|cbn; lia].
  cbv zeta. destruct (negb a); [cbn; lia|].
  destruct (PdfReader (seek 0 f)) as [[e|pages] f']; [cbn; lia|].
  destruct (negb (Z.of_nat (List.length pages) =? n)); cbn; lia.
Qed.

Lemma check_dimensions_warnings (a : bool) (config : order_config)
    (info : file_info_dict) (errs : list string) (f : file_obj) :
  snd (fst (check_dimensions a config info errs [] f)) = [] \/
  (String.eqb (extension info) ".pdf" = false /\
   exists dpi, snd (fst (check_dimensions a config info errs [] f))
               = [Msg.low_resolution dpi]).
Proof.
  unfold check_dimensions.
  destruct (get_expected_dimensions config) as [[ew eh]|]; [|left; reflexivity].
  destruct (a && no_errors errs)%bool; [|left; reflexivity].
  cbv zeta. destruct (String.eqb (extension info) ".pdf").
  - destruct (validate_pdf_dimensions a (seek 0 f) ew eh) as [[ok d] f'].
    destruct (negb ok && negb (is_dict d))%bool; left; reflexivity.
  - destruct (PyStr.mem (extension info) IMAGE_EXTENSIONS); [|left; reflexivity].
    destruct (validate_image_dimensions (seek 0 f) ew eh) as [[ok d] f'].
    destruct d as [w|found expected [dpi|]|m]; try (left; reflexivity).
    destruct (Qgt_bool 150 (value dpi)); [|left; reflexivity].
    right. split; [reflexivity|]. exists dpi. reflexivity.
Qed.

Lemma check_duplex_cases (config : order_config) (warns : list string) :
  check_duplex config warns = warns \/
  (is_book config = true /\
   check_duplex config warns = (warns ++ [Msg.odd_duplex_book])%list).
Proof.
  unfold check_duplex.
  destruct (String.eqb (duplex config) "recto_verso"); [|left; reflexivity].
  destruct (is_book config); cbn [andb]; [|left; reflexivity].
  destruct (truthy_Z (book_pages config)); [|left; reflexivity].
  destruct (book_pages config) as [n|]; [|left; reflexivity].
  destruct (negb (n mod 2 =? 0)); [right; split; reflexivity|left; reflexivity].
Qed.

(** X14: a verdict has at most two errors and at most one warning.  It has two
    errors only for a book whose extension is not an accepted one, and these
    are the unsupported-format error followed by the book-format error; a
    verdict with a warning has at most one error. *)
Theorem verdict_list_sizes
    (PDF2_AVAILABLE : bool) (f : file_obj) (config : order_config) :
  let v := fst (validate_file_against_config PDF2_AVAILABLE f config) in
  (List.length (errors v) <= 2)%nat /\
  (List.length (warnings v) <= 1)%nat /\
  (List.length (errors v) = 2%nat ->
   is_book config = true /\
   PyStr.mem (extension (get_file_info f)) ACCEPTED_EXTENSIONS = false /\
   errors v = [Msg.unsupported_format (extension (get_file_info f));
               Msg.book_needs_pdf]) /\
  (warnings v <> [] -> (List.length (errors v) <= 1)%nat).
Proof.
  cbv zeta.
  destruct (is_book config && negb (String.eqb (extension (get_file_info f)) ".pdf"))%bool
    eqn:Hsc.
  - rewrite (validate_returns_early _ _ _ Hsc). cbn [fst errors warnings].
    apply andb_true_iff in Hsc. destruct Hsc as [Hb _].
    destruct (check_format_length (get_file_info f)) as [[-> Hacc]|[-> Hacc]];
      cbn [app List.length].
    + refine (conj _ (conj _ (conj _ _))); lia.
    + refine (conj _ (conj _ (conj _ _))); try lia.
      * intros _. refine (conj Hb (conj Hacc eq_refl)).
      * intro H. contradiction.
  - rewrite (validate_continues _ _ _ Hsc). cbv zeta.
    assert (Hlen2 : (List.length (fst (before_size PDF2_AVAILABLE f config)) <= 1)%nat).
    { unfold before_size. destruct (is_book config) eqn:Hb.
      - cbn [andb] in Hsc. apply negb_false_iff in Hsc. apply String.eqb_eq in Hsc.
        unfold check_format. rewrite Hsc. cbn [PyStr.mem ACCEPTED_EXTENSIONS existsb
          String.eqb Ascii.eqb Bool.eqb orb].
        apply check_book_pages_length.
      - cbn [fst]. destruct (check_format_length (get_file_info f)) as [[-> _]|[-> _]];
          cbn; lia. }
    destruct (before_size PDF2_AVAILABLE f config) as [e2 f1]. cbn [fst] in Hlen2.
    assert (Hlen3 : (List.length (check_size (get_file_info f) e2) <= 1)%nat).
    { destruct (check_size_cases (get_file_info f) e2)
        as [[_ ->]|[[_ [_ ->]]|[_ [_ ->]]]]; cbn; lia. }
    pose proof (check_dimensions_errors PDF2_AVAILABLE config (get_file_info f)
                  (check_size (get_file_info f) e2) [] f1) as Hdim.
    pose proof (check_dimensions_warnings PDF2_AVAILABLE config (get_file_info f)
                  (check_size (get_file_info f) e2) f1) as Hwarn.
    destruct (check_dimensions PDF2_AVAILABLE config (get_file_info f)
                (check_size (get_file_info f) e2) [] f1) as [[e4 w4] f4].
    cbn [fst snd errors warnings] in *.
    assert (Hlen4 : (List.length e4 <= 1)%nat).
    { destruct Hdim as [->|[_ [ew [eh [_ [->| ->]]]]]]; cbn; lia. }
    assert (Hw : (List.length (check_duplex config w4) <= 1)%nat).
    { destruct (check_duplex_cases config w4) as [->|[Hb ->]].
      - destruct Hwarn as [->|[_ [dpi ->]]]; cbn; lia.
      - rewrite Hb in Hsc. cbn [andb] in Hsc. apply negb_false_iff in Hsc.
        destruct Hwarn as [->|[Hn _]]; [cbn; lia|congruence]. }
    refine (conj _ (conj Hw (conj _ _))); lia.
Qed.


Lemma verdict_list_sizes_witness :
  let f := Sample.upload "notes.txt" 10 Sample.not_a_pdf Sample.not_an_image in
  is_book Sample.book_101 = true /\
  PyStr.mem (extension (get_file_info f)) ACCEPTED_EXTENSIONS = false.
Proof.
  cbv zeta.
  pose proof (verdict_list_sizes true
    (Sample.upload "notes.txt" 10 Sample.not_a_pdf Sample.not_an_image)
    Sample.book_101) as (_ & _ & Htwo & _).
  destruct (Htwo eq_refl) as (Hb & Hacc & _).
  split; [exact Hb|exact Hacc].
Defined.

(** ** Further properties: what the verdict depends on *)

Lemma same_reading_rewound (f1 f g1 g : file_obj) :
  seek 0 f1 = seek 0 f -> seek 0 g1 = seek 0 g ->
  same_reading f g -> same_reading f1 g1.
Proof.
  intros Hf Hg [Hp Hi]. unfold same_reading.
  change (pdf_view f1) with (pdf_view (seek 0 f1)).
  change (image_view f1) with (image_view (seek 0 f1)).
  change (pdf_view g1) with (pdf_view (seek 0 g1)).
  change (image_view g1) with (image_view (seek 0 g1)).
  rewrite Hf, Hg. split; assumption.
Qed.

Lemma validate_pdf_dimensions_reading (a : bool) (f g : file_obj) (ew eh : Q) :
  fst (pdf_view f 0) = fst (pdf_view g 0) ->
  fst (validate_pdf_dimensions a (seek 0 f) ew eh)
  = fst (validate_pdf_dimensions a (seek 0 g) ew eh).
Proof.
  intro H. unfold validate_pdf_dimensions, PdfReader.
  cbn [seek position pdf_view].
  destruct (negb a); [reflexivity|].
  destruct (pdf_view f 0) as [r p]. destruct (pdf_view g 0) as [r' p'].
  cbn [fst] in H. subst r'.
  destruct r as [e|[|[e|w h] rest]]; try reflexivity.
  destruct (portrait (w * MM_PER_POINT) (h * MM_PER_POINT)) as [wm hm]. reflexivity.
Qed.

Lemma validate_image_dimensions_reading (f g : file_obj) (ew eh : Q) :
  fst (image_view f 0) = fst (image_view g 0) ->
  fst (validate_image_dimensions (seek 0 f) ew eh)
  = fst (validate_image_dimensions (seek 0 g) ew eh).
Proof.
  intro H. unfold validate_image_dimensions, Image_open.
  cbn [seek position image_view].
  destruct (image_view f 0) as [r p]. destruct (image_view g 0) as [r' p'].
  cbn [fst] in H. subst r'.
  destruct r as [e|w h d]; [reflexivity|].
  destruct (if Qgt_bool _ 0 then _ else _) as [x y].
  destruct (portrait x y) as [wm hm]. reflexivity.
Qed.

Lemma check_book_pages_reading (a : bool) (config : order_config)
    (errs : list string) (f g : file_obj) :
  same_reading f g ->
  fst (check_book_pages a config errs f) = fst (check_book_pages a config errs g).
Proof.
  intros [Hp _]. unfold check_book_pages.
  destruct (truthy_Z (book_pages config)); [|reflexivity].
  destruct (book_pages config) as [n|]; [|reflexivity].
  cbv zeta. destruct (negb a); [reflexivity|].
  unfold PdfReader. cbn [seek position pdf_view].
  destruct (pdf_view f 0) as [r p]. destruct (pdf_view g 0) as [r' p'].
  cbn [fst] in Hp. subst r'.
  destruct r as [e|pages]; [reflexivity|].
  destruct (negb (Z.of_nat (List.length pages) =? n)); reflexivity.
Qed.

Lemma check_dimensions_reading (a : bool) (config : order_config)
    (i j : file_info_dict) (errs warns : list string) (f g : file_obj) :
  extension i = extension j ->
  same_reading f g ->
  fst (check_dimensions a config i errs warns f)
  = fst (check_dimensions a config j errs warns g).
Proof.
  intros Hext [Hp Hi]. unfold check_dimensions. rewrite Hext.
  destruct (get_expected_dimensions config) as [[ew eh]|]; [|reflexivity].
  destruct (a && no_errors errs)%bool; [|reflexivity].
  cbv zeta. destruct (String.eqb (extension j) ".pdf").
  - pose proof (validate_pdf_dimensions_reading a f g ew eh Hp) as H.
    destruct (validate_pdf_dimensions a (seek 0 f) ew eh) as [[ok d] f'].
    destruct (validate_pdf_dimensions a (seek 0 g) ew eh) as [[ok' d'] g'].
    cbn [fst] in H. injection H as <- <-.
    destruct (negb ok && negb (is_dict d))%bool; reflexivity.
  - destruct (PyStr.mem (extension j) IMAGE_EXTENSIONS); [|reflexivity].
    pose proof (validate_image_dimensions_reading f g ew eh Hi) as H.
    destruct (validate_image_dimensions (seek 0 f) ew eh) as [[ok d] f'].
    destruct (validate_image_dimensions (seek 0 g) ew eh) as [[ok' d'] g'].
    cbn [fst] in H. injection H as <- <-. reflexivity.
Qed.

(** X16: the errors, the warnings and the validity of the verdict depend on
    the upload only through its lowercased extension, its size, and what the
    two libraries read from the start of the stream: not on the rest of the
    name, the declared media type, or the position the stream is at. *)
Theorem verdict_depends_on
    (PDF2_AVAILABLE : bool) (f g : file_obj) (config : order_config) :
  extension (get_file_info f) = extension (get_file_info g) ->
  size f = size g ->
  same_reading f g ->
  let vf := fst (validate_file_against_config PDF2_AVAILABLE f config) in
  let vg := fst (validate_file_against_config PDF2_AVAILABLE g config) in
  errors vf = errors vg /\ warnings vf = warnings vg /\ is_valid vf = is_valid vg.
Proof.
  intros Hext Hsize Hread. cbv zeta.
  assert (Hfmt : check_format (get_file_info f) [] = check_format (get_file_info g) []).
  { unfold check_format. rewrite Hext. reflexivity. }
  assert (Hsz : forall e, check_size (get_file_info f) e = check_size (get_file_info g) e).
  { intro e. unfold check_size. cbn [get_file_info info_size]. rewrite Hsize. reflexivity. }
  destruct (is_book config && negb (String.eqb (extension (get_file_info g)) ".pdf"))%bool
    eqn:Hsc.
  - rewrite (validate_returns_early _ g _ Hsc).
    rewrite <- Hext in Hsc. rewrite (validate_returns_early _ f _ Hsc).
    cbn [fst errors warnings is_valid]. rewrite Hfmt. repeat split.
  - rewrite (validate_continues _ g _ Hsc).
    rewrite <- Hext in Hsc. rewrite (validate_continues _ f _ Hsc). cbv zeta.
    pose proof (before_size_rewinds PDF2_AVAILABLE f config) as Hf1.
    pose proof (before_size_rewinds PDF2_AVAILABLE g config) as Hg1.
    assert (He2 : fst (before_size PDF2_AVAILABLE f config)
                  = fst (before_size PDF2_AVAILABLE g config)).
    { unfold before_size. rewrite Hfmt. destruct (is_book config); [|reflexivity].
      apply check_book_pages_reading. exact Hread. }
    destruct (before_size PDF2_AVAILABLE f config) as [e2 f1].
    destruct (before_size PDF2_AVAILABLE g config) as [e2' g1].
    cbn [fst snd] in *. subst e2'.
    pose proof (check_dimensions_reading PDF2_AVAILABLE config
                  (get_file_info f) (get_file_info g)
                  (check_size (get_file_info g) e2) [] f1 g1 Hext
                  (same_reading_rewound f1 f g1 g Hf1 Hg1 Hread)) as H4.
    rewrite Hsz.
    destruct (check_dimensions PDF2_AVAILABLE config (get_file_info f)
                (check_size (get_file_info g) e2) [] f1) as [[e4 w4] f4].
    destruct (check_dimensions PDF2_AVAILABLE config (get_file_info g)
                (check_size (get_file_info g) e2) [] g1) as [[e4' w4'] g4].
    cbn [fst] in H4. injection H4 as <- <-. repeat split.
Qed.


Lemma verdict_depends_on_witness :
  let f := Sample.upload "scan.png" 52000 Sample.not_a_pdf
             (Image 2480 3508 (Some (Sample.dpi_pair 96))) in
  let g := {| name := "Other Name.PNG"; size := 52000; content_type := "image/png";
              position := 4096;
              pdf_view := fun p => if p =? 0 then (Sample.not_a_pdf, 9)
                                   else (Reader [], p);
              image_view := fun p => if p =? 0
                                     then (Image 2480 3508 (Some (Sample.dpi_pair 96)), 5)
                                     else (Sample.not_an_image, p) |} in
  errors (fst (validate_file_against_config true f Sample.a4_sheet))
  = errors (fst (validate_file_against_config true g Sample.a4_sheet)).
Proof.
  cbv zeta.
  refine (proj1 (verdict_depends_on true
    (Sample.upload "scan.png" 52000 Sample.not_a_pdf
       (Image 2480 3508 (Some (Sample.dpi_pair 96))))
    {| name := "Other Name.PNG"; size := 52000; content_type := "image/png";
       position := 4096;
       pdf_view := fun p => if p =? 0 then (Sample.not_a_pdf, 9) else (Reader [], p);
       image_view := fun p => if p =? 0
                              then (Image 2480 3508 (Some (Sample.dpi_pair 96)), 5)
                              else (Sample.not_an_image, p) |}
    Sample.a4_sheet _ _ _)).
  - reflexivity.
  - reflexivity.
  - split; reflexivity.
Defined.

(** ** Further properties: warnings, and orders without the PDF library *)

(** X7: without the PDF library, an order that is not a book is judged on the
    extension and the size of the file alone, and the file is never opened:
    the verdict is valid exactly when the extension is an accepted one and
    the size is within the limit, images included, whatever their
    dimensions. *)
Theorem unavailable_plain_order (f : file_obj) (config : order_config) :
  is_book config = false ->
  validate_file_against_config false f config
  = ({| is_valid :=
          (PyStr.mem (extension (get_file_info f)) ACCEPTED_EXTENSIONS
           && (size f <=? 10 * 1024 * 1024))%bool;
        errors :=
          if PyStr.mem (extension (get_file_info f)) ACCEPTED_EXTENSIONS
          then if size f <=? 10 * 1024 * 1024 then []
               else [Msg.too_large (size f) 10]
          else [Msg.unsupported_format (extension (get_file_info f))];
        warnings := [];
        file_info := get_file_info f |}, f).
Proof.
  intro Hbook.
  destruct (PyStr.mem (extension (get_file_info f)) ACCEPTED_EXTENSIONS) eqn:Hacc.
  - destruct (size f <=? 10 * 1024 * 1024) eqn:Hsize.
    + apply Z.leb_le in Hsize.
      rewrite (validate_plain false f config Hbook Hacc Hsize).
      rewrite check_dimensions_unavailable. reflexivity.
    + apply Z.leb_gt in Hsize.
      rewrite (validate_oversized false f config Hbook Hacc Hsize). reflexivity.
  - rewrite (validate_unsupported false f config Hacc), Hbook. reflexivity.
Qed.


Lemma unavailable_plain_order_witness :
  let f := Sample.upload "tiny.png" 52000 Sample.not_a_pdf
             (Image 10 10 (Some (Sample.dpi_pair 72))) in
  validate_file_against_config false f Sample.a4_sheet
  = ({| is_valid := true; errors := []; warnings := [];
        file_info := get_file_info f |}, f).
Proof.
  cbv zeta.
  exact (unavailable_plain_order
    (Sample.upload "tiny.png" 52000 Sample.not_a_pdf
       (Image 10 10 (Some (Sample.dpi_pair 72))))
    Sample.a4_sheet eq_refl).
Defined.

Lemma check_dimensions_low_resolution (a : bool) (config : order_config)
    (info : file_info_dict) (errs : list string) (f : file_obj) :
  snd (fst (check_dimensions a config info errs [] f)) = [] \/
  (a = true /\ errs = [] /\
   PyStr.mem (extension info) IMAGE_EXTENSIONS = true /\
   String.eqb (extension info) ".pdf" = false /\
   (exists ew eh, get_expected_dimensions config = Some (ew, eh)) /\
   exists w h d p,
     image_view f 0 = (Image w h d, p) /\
     let dpi := fst (match d with Some x => x | None => (int_72, int_72) end) in
     (value dpi < 150)%Q /\
     snd (fst (check_dimensions a config info errs [] f)) = [Msg.low_resolution dpi]).
Proof.
  unfold check_dimensions.
  destruct (get_expected_dimensions config) as [[ew eh]|]; [|left; reflexivity].
  destruct a; [|left; reflexivity].
  destruct errs as [|e r]; [|left; reflexivity].
  cbn [andb no_errors]. cbv zeta.
  destruct (String.eqb (extension info) ".pdf").
  - destruct (validate_pdf_dimensions true (seek 0 f) ew eh) as [[ok d] f'].
    destruct (negb ok && negb (is_dict d))%bool; left; reflexivity.
  - destruct (PyStr.mem (extension info) IMAGE_EXTENSIONS); [|left; reflexivity].
    unfold validate_image_dimensions, Image_open. cbn [seek position image_view].
    destruct (image_view f 0) as [[e|w h d] p]; [left; reflexivity|].
    destruct (if Qgt_bool _ 0 then _ else _) as [x y].
    destruct (portrait x y) as [wm hm].
    destruct (Qgt_bool 150 (value (fst match d with
                                       | Some x0 => x0
                                       | None => (int_72, int_72)
                                       end))) eqn:Hlow; [|left; reflexivity].
    right. refine (conj eq_refl (conj eq_refl (conj eq_refl (conj eq_refl (conj _ _))))).
    + exists ew, eh. reflexivity.
    + exists w, h, d, p. split; [reflexivity|]. cbv zeta. split; [|reflexivity].
      unfold Qgt_bool in Hlow. apply negb_true_iff in Hlow.
      apply Qle_bool_false. exact Hlow.
Qed.

Lemma check_duplex_origin (config : order_config) (warns : list string) :
  check_duplex config warns = warns \/
  (duplex config = "recto_verso" /\ is_book config = true /\
   (exists n, book_pages config = Some n /\ Z.odd n = true) /\
   check_duplex config warns = (warns ++ [Msg.odd_duplex_book])%list).
Proof.
  unfold check_duplex.
  destruct (String.eqb (duplex config) "recto_verso") eqn:Hd; [|left; reflexivity].
  apply String.eqb_eq in Hd.
  destruct (is_book config); cbn [andb]; [|left; reflexivity].
  destruct (truthy_Z (book_pages config)); [|left; reflexivity].
  destruct (book_pages config) as [n|]; [|left; reflexivity].
  destruct (negb (n mod 2 =? 0)) eqn:Hodd; [|left; reflexivity].
  right. refine (conj Hd (conj eq_refl (conj _ eq_refl))).
  exists n. split; [reflexivity|].
  rewrite Zmod_odd in Hodd. destruct (Z.odd n); [reflexivity|discriminate Hodd].
Qed.

(** X15: every warning of a verdict is accounted for.  It is the parity
    warning, and then [duplex] is ['recto_verso'], the order is a book
    uploaded as a [.pdf] and [book_pages] is odd; or it is the low-resolution
    warning of an image that decoded with a horizontal resolution below 150,
    and then the order is not a book, the PDF library is available, an
    expectation exists and the file is within the size limit. *)
Theorem warnings_origin
    (PDF2_AVAILABLE : bool) (f : file_obj) (config : order_config) (s : string) :
  In s (warnings (fst (validate_file_against_config PDF2_AVAILABLE f config))) ->
  (s = Msg.odd_duplex_book /\
   duplex config = "recto_verso" /\ is_book config = true /\
   extension (get_file_info f) = ".pdf" /\
   exists n, book_pages config = Some n /\ Z.odd n = true) \/
  (is_book config = false /\ PDF2_AVAILABLE = true /\
   PyStr.mem (extension (get_file_info f)) IMAGE_EXTENSIONS = true /\
   size f <= 10 * 1024 * 1024 /\
   (exists ew eh, get_expected_dimensions config = Some (ew, eh)) /\
   exists w h d p,
     image_view f 0 = (Image w h d, p) /\
     let dpi := fst (match d with Some x => x | None => (int_72, int_72) end) in
     (value dpi < 150)%Q /\ s = Msg.low_resolution dpi).
Proof.
  destruct (is_book config && negb (String.eqb (extension (get_file_info f)) ".pdf"))%bool
    eqn:Hsc.
  { rewrite (validate_returns_early _ _ _ Hsc). cbn [fst warnings]. contradiction. }
  rewrite (validate_continues _ _ _ Hsc). cbv zeta.
  pose proof (before_size_rewinds PDF2_AVAILABLE f config) as Hrew.
  destruct (before_size PDF2_AVAILABLE f config) as [e2 f1]. cbn [snd] in Hrew.
  pose proof (check_dimensions_low_resolution PDF2_AVAILABLE config (get_file_info f)
                (check_size (get_file_info f) e2) f1) as Hlow.
  destruct (check_dimensions PDF2_AVAILABLE config (get_file_info f)
              (check_size (get_file_info f) e2) [] f1) as [[e4 w4] f4].
  cbn [fst snd warnings] in *.
  assert (Hview : image_view f1 0 = image_view f 0).
  { change (image_view f1) with (image_view (seek 0 f1)). rewrite Hrew. reflexivity. }
  destruct (check_duplex_origin config w4) as [->|[Hd [Hb [Hn ->]]]].
  - intro Hin. right.
    destruct Hlow as [->|(Ha & Hs & Himg & Hnpdf & Hexp & w & h & d & p & Hv & Hl & ->)];
      [contradiction|].
    destruct Hin as [<-|[]].
    assert (Hbook : is_book config = false).
    { destruct (is_book config); [|reflexivity].
      cbn [andb] in Hsc. rewrite Hnpdf in Hsc. discriminate Hsc. }
    refine (conj Hbook (conj Ha (conj Himg (conj _ (conj Hexp _))))).
    + destruct (check_size_cases (get_file_info f) e2)
        as [[Hne E]|[[_ [Hle _]]|[_ [_ E]]]].
      * rewrite E in Hs. contradiction.
      * exact Hle.
      * rewrite E in Hs. discriminate Hs.
    + exists w, h, d, p. rewrite <- Hview. split; [exact Hv|]. split; [exact Hl|reflexivity].
  - intro Hin. left.
    assert (Hext : extension (get_file_info f) = ".pdf").
    { rewrite Hb in Hsc. cbn [andb] in Hsc. apply negb_false_iff in Hsc.
      apply String.eqb_eq. exact Hsc. }
    destruct Hlow as [->|(_ & _ & _ & Hnpdf & _)].
    + destruct Hin as [<-|[]]. refine (conj eq_refl (conj Hd (conj Hb (conj Hext Hn)))).
    + rewrite Hext in Hnpdf. discriminate Hnpdf.
Qed.


Lemma warnings_origin_witness :
  let f := Sample.upload "novel.pdf" 52000 (Reader (repeat (MediaBox 595 842) 101))
             Sample.not_an_image in
  (Msg.odd_duplex_book = Msg.odd_duplex_book /\
   duplex Sample.book_101 = "recto_verso" /\ is_book Sample.book_101 = true /\
   extension (get_file_info f) = ".pdf" /\
   exists n, book_pages Sample.book_101 = Some n /\ Z.odd n = true) \/
  (is_book Sample.book_101 = false /\ true = true /\
   PyStr.mem (extension (get_file_info f)) IMAGE_EXTENSIONS = true /\
   size f <= 10 * 1024 * 1024 /\
   (exists ew eh, get_expected_dimensions Sample.book_101 = Some (ew, eh)) /\
   exists w h d p,
     image_view f 0 = (Image w h d, p) /\
     let dpi := fst (match d with Some x => x | None => (int_72, int_72) end) in
     (value dpi < 150)%Q /\ Msg.odd_duplex_book = Msg.low_resolution dpi).
Proof.
  cbv zeta.
  apply (warnings_origin true
    (Sample.upload "novel.pdf" 52000 (Reader (repeat (MediaBox 595 842) 101))
       Sample.not_an_image)
    Sample.book_101 Msg.odd_duplex_book).
  vm_compute. left. reflexivity.
Defined.

Lemma rfind_absent (c : ascii) (s : string) :
  (forall n, get n s <> Some c) -> PyStr.rfind c s = -1.
Proof.
  induction s as [|d r IH]; intro H; [reflexivity|].
  rewrite rfind_cons, IH.
  - cbn [Z.leb Z.compare]. destruct (Ascii.eqb d c) eqn:E; [|reflexivity].
    apply Ascii.eqb_eq in E. subst d. exfalso. exact (H O eq_refl).
  - intro n. exact (H (S n)).
Qed.

(** X4: a file whose name has no dot has the empty extension; it is rejected
    with the unsupported-format error first, and it is never opened. *)
Theorem name_without_dot
    (PDF2_AVAILABLE : bool) (f : file_obj) (config : order_config) :
  (forall n, get n (name f) <> Some "."%char) ->
  extension (get_file_info f) = "" /\
  is_valid (fst (validate_file_against_config PDF2_AVAILABLE f config)) = false /\
  snd (validate_file_against_config PDF2_AVAILABLE f config) = f /\
  hd_error (errors (fst (validate_file_against_config PDF2_AVAILABLE f config)))
    = Some (Msg.unsupported_format "").
Proof.
  intro Hdot.
  assert (Hext : extension (get_file_info f) = "").
  { cbn [get_file_info extension]. unfold PyStr.splitext.
    rewrite (rfind_absent "." (name f) Hdot).
    destruct (rfind_range "/" (name f)) as [E|E].
    - rewrite E. reflexivity.
    - destruct (PyStr.rfind "/" (name f) <? -1) eqn:L; [apply Z.ltb_lt in L; lia|].
      reflexivity. }
  split; [exact Hext|].
  rewrite (validate_unsupported PDF2_AVAILABLE f config)
    by (rewrite Hext; reflexivity).
  rewrite Hext. repeat split.
Qed.


Lemma name_without_dot_witness :
  let f := Sample.upload "README" 52000 (Reader [MediaBox 595 842]) Sample.not_an_image in
  extension (get_file_info f) = "" /\
  is_valid (fst (validate_file_against_config true f Sample.a4_sheet)) = false.
Proof.
  cbv zeta.
  assert (Hdot : forall n, get n "README" <> Some "."%char).
  { intro n. do 6 (destruct n as [|n]; [discriminate|]). discriminate. }
  pose proof (name_without_dot true
    (Sample.upload "README" 52000 (Reader [MediaBox 595 842]) Sample.not_an_image)
    Sample.a4_sheet Hdot) as (Hext & Hvalid & _).
  split; [exact Hext|exact Hvalid].
Defined.

(** ** Further properties: every error is accounted for *)

Lemma check_book_pages_origin (a : bool) (config : order_config) (f : file_obj) :
  fst (check_book_pages a config [] f) = [] \/
  exists n, book_pages config = Some n /\ n <> 0 /\
    ((a = false /\ fst (check_book_pages a config [] f) = [Msg.pdf_system_unavailable]) \/
     (a = true /\ exists e p,
        pdf_view f 0 = (ReaderRaises e, p) /\
        fst (check_book_pages a config [] f) = [Msg.pdf_unreadable e]) \/
     (a = true /\ exists pages p,
        pdf_view f 0 = (Reader pages, p) /\
        Z.of_nat (List.length pages) <> n /\
        fst (check_book_pages a config [] f)
        = [Msg.page_count (Z.of_nat (List.length pages)) n])).
Proof.
  unfold check_book_pages.
  destruct (truthy_Z (book_pages config)) eqn:Ht; [|left; reflexivity].
  destruct (book_pages config) as [n|]; [|left; reflexivity].
  assert (Hn : n <> 0).
  { intros ->. discriminate Ht. }
  cbv zeta. destruct a; cbn [negb].
  - unfold PdfReader. cbn [seek position pdf_view].
    destruct (pdf_view f 0) as [[e|pages] p].
    + right. exists n. refine (conj eq_refl (conj Hn _)).
      right. left. split; [reflexivity|]. exists e, p. split; reflexivity.
    + destruct (Z.of_nat (List.length pages) =? n) eqn:E; cbn [negb].
      * left. reflexivity.
      * right. exists n. refine (conj eq_refl (conj Hn _)).
        right. right. split; [reflexivity|]. exists pages, p.
        apply Z.eqb_neq in E. refine (conj eq_refl (conj E eq_refl)).
  - right. exists n. refine (conj eq_refl (conj Hn _)).
    left. split; reflexivity.
Qed.

Lemma check_dimensions_origin (config : order_config) (info : file_info_dict)
    (a : bool) (warns : list string) (f : file_obj) :
  fst (fst (check_dimensions a config info [] warns f)) = [] \/
  (a = true /\
   exists ew eh, get_expected_dimensions config = Some (ew, eh) /\
     ((extension info = ".pdf" /\
       (forall w h rest p, pdf_view f 0 <> (Reader (MediaBox w h :: rest), p)) /\
       fst (fst (check_dimensions a config info [] warns f))
       = [Msg.pdf_dimensions ew eh]) \/
      (PyStr.mem (extension info) IMAGE_EXTENSIONS = true /\
       fst (fst (validate_image_dimensions (seek 0 f) ew eh)) = false /\
       fst (fst (check_dimensions a config info [] warns f))
       = [Msg.image_dimensions ew eh]))).
Proof.
  unfold check_dimensions.
  destruct (get_expected_dimensions config) as [[ew eh]|]; [|left; reflexivity].
  destruct a; [|left; reflexivity].
  cbn [andb no_errors]. cbv zeta.
  destruct (String.eqb (extension info) ".pdf") eqn:Hpdf.
  - apply String.eqb_eq in Hpdf.
    unfold validate_pdf_dimensions, PdfReader. cbn [negb seek position pdf_view].
    destruct (pdf_view f 0) as [[e|[|[e|w h] rest]] p];
      try (right; split; [reflexivity|]; exists ew, eh; split; [reflexivity|];
           left; refine (conj Hpdf (conj _ eq_refl)); intros; discriminate).
    destruct (portrait (w * MM_PER_POINT) (h * MM_PER_POINT)) as [wm hm].
    cbn [is_dict negb andb]. rewrite andb_false_r. left. reflexivity.
  - destruct (PyStr.mem (extension info) IMAGE_EXTENSIONS) eqn:Himg; [|left; reflexivity].
    destruct (validate_image_dimensions (seek 0 f) ew eh) as [[ok d] f'] eqn:Hv.
    destruct ok; cbn [negb fst]; [left; reflexivity|].
    right. split; [reflexivity|]. exists ew, eh. split; [reflexivity|].
    right. rewrite Hv. refine (conj eq_refl (conj eq_refl eq_refl)).
Qed.

(** X17: every error of a verdict is accounted for.  It is the
    unsupported-format error of an extension that is not accepted; the
    book-format error of a book that is not a [.pdf]; the unavailable-system
    error of a book with [book_pages] set, without the PDF library; the
    unreadable error of a book whose PDF the reader rejects; the page-count
    error of a book whose PDF has another number of pages than [book_pages];
    the size error of a file over the limit; the dimension error of a PDF
    whose first page cannot be measured; or the dimension error of an image
    that [validate_image_dimensions] does not report as matching. *)
Theorem errors_origin
    (PDF2_AVAILABLE : bool) (f : file_obj) (config : order_config) (s : string) :
  In s (errors (fst (validate_file_against_config PDF2_AVAILABLE f config))) ->
  (s = Msg.unsupported_format (extension (get_file_info f)) /\
   PyStr.mem (extension (get_file_info f)) ACCEPTED_EXTENSIONS = false) \/
  (s = Msg.book_needs_pdf /\
   is_book config = true /\ extension (get_file_info f) <> ".pdf") \/
  (s = Msg.pdf_system_unavailable /\
   PDF2_AVAILABLE = false /\ is_book config = true /\
   exists n, book_pages config = Some n /\ n <> 0) \/
  (is_book config = true /\
   exists e p, pdf_view f 0 = (ReaderRaises e, p) /\ s = Msg.pdf_unreadable e) \/
  (is_book config = true /\
   exists n pages p,
     book_pages config = Some n /\ pdf_view f 0 = (Reader pages, p) /\
     Z.of_nat (List.length pages) <> n /\
     s = Msg.page_count (Z.of_nat (List.length pages)) n) \/
  (s = Msg.too_large (size f) 10 /\ 10 * 1024 * 1024 < size f) \/
  (exists ew eh,
     get_expected_dimensions config = Some (ew, eh) /\
     extension (get_file_info f) = ".pdf" /\
     (forall w h rest p, pdf_view f 0 <> (Reader (MediaBox w h :: rest), p)) /\
     s = Msg.pdf_dimensions ew eh) \/
  (exists ew eh,
     get_expected_dimensions config = Some (ew, eh) /\
     PyStr.mem (extension (get_file_info f)) IMAGE_EXTENSIONS = true /\
     fst (fst (validate_image_dimensions (seek 0 f) ew eh)) = false /\
     s = Msg.image_dimensions ew eh).
Proof.
  destruct (is_book config && negb (String.eqb (extension (get_file_info f)) ".pdf"))%bool
    eqn:Hsc.
  { rewrite (validate_returns_early _ _ _ Hsc). cbn [fst errors].
    apply andb_true_iff in Hsc. destruct Hsc as [Hb Hne].
    apply negb_true_iff in Hne. apply String.eqb_neq in Hne.
    intro Hin. apply in_app_or in Hin. destruct Hin as [Hin|[<-|[]]].
    - left. destruct (check_format_length (get_file_info f)) as [[E _]|[E Hacc]];
        rewrite E in Hin; [contradiction|].
      destruct Hin as [<-|[]]. split; [reflexivity|exact Hacc].
    - right. left. refine (conj eq_refl (conj Hb Hne)). }
  rewrite (validate_continues _ _ _ Hsc). cbv zeta.
  pose proof (before_size_rewinds PDF2_AVAILABLE f config) as Hrew.
  assert (H2 : forall e2, fst (before_size PDF2_AVAILABLE f config) = e2 ->
               e2 = [] \/
               (exists x, e2 = [x] /\
                 ((x = Msg.unsupported_format (extension (get_file_info f)) /\
                   PyStr.mem (extension (get_file_info f)) ACCEPTED_EXTENSIONS = false) \/
                  (x = Msg.pdf_system_unavailable /\
                   PDF2_AVAILABLE = false /\ is_book config = true /\
                   exists n, book_pages config = Some n /\ n <> 0) \/
                  (is_book config = true /\
                   exists e p, pdf_view f 0 = (ReaderRaises e, p) /\ x = Msg.pdf_unreadable e) \/
                  (is_book config = true /\
                   exists n pages p,
                     book_pages config = Some n /\ pdf_view f 0 = (Reader pages, p) /\
                     Z.of_nat (List.length pages) <> n /\
                     x = Msg.page_count (Z.of_nat (List.length pages)) n)))).
  { intros e2 <-. unfold before_size. destruct (is_book config) eqn:Hb.
    - cbn [andb] in Hsc. apply negb_false_iff in Hsc. apply String.eqb_eq in Hsc.
      unfold check_format. rewrite Hsc.
      cbn [PyStr.mem ACCEPTED_EXTENSIONS existsb String.eqb Ascii.eqb Bool.eqb orb].
      destruct (check_book_pages_origin PDF2_AVAILABLE config f)
        as [->|(n & Hp & Hn & [[Ha ->]|[[Ha (e & p & Hv & ->)]|[Ha (pages & p & Hv & Hne & ->)]]])].
      + left. reflexivity.
      + right. eexists. split; [reflexivity|]. right. left.
        refine (conj eq_refl (conj Ha (conj eq_refl _))). exists n. split; assumption.
      + right. eexists. split; [reflexivity|]. right. right. left.
        split; [reflexivity|]. exists e, p. split; [exact Hv|reflexivity].
      + right. eexists. split; [reflexivity|]. right. right. right.
        split; [reflexivity|]. exists n, pages, p.
        refine (conj Hp (conj Hv (conj Hne eq_refl))).
    - cbn [fst]. destruct (check_format_length (get_file_info f)) as [[-> _]|[-> Hacc]].
      + left. reflexivity.
      + right. eexists. split; [reflexivity|]. left. split; [reflexivity|exact Hacc]. }
  destruct (before_size PDF2_AVAILABLE f config) as [e2 f1]. cbn [fst snd] in *.
  specialize (H2 e2 eq_refl).
  assert (Hpv : pdf_view f1 0 = pdf_view f 0).
  { change (pdf_view f1) with (pdf_view (seek 0 f1)). rewrite Hrew. reflexivity. }
  destruct H2 as [->|(x & -> & Hx)].
  - destruct (check_size_cases (get_file_info f) [])
      as [[Hne _]|[[_ [_ Hs]]|[_ [Hgt Hs]]]]; [contradiction| |]; rewrite Hs.
    + pose proof (check_dimensions_origin config (get_file_info f) PDF2_AVAILABLE [] f1)
        as Hd.
      destruct (check_dimensions PDF2_AVAILABLE config (get_file_info f) [] [] f1)
        as [[e4 w4] f4].
      cbn [fst errors] in *.
      destruct Hd as [->|(_ & ew & eh & Hexp & [(Hext & Hun & ->)|(Himg & Hno & ->)])].
      * contradiction.
      * intros [<-|[]]. do 6 right. left. exists ew, eh.
        rewrite Hpv in Hun. refine (conj Hexp (conj Hext (conj Hun eq_refl))).
      * intros [<-|[]]. do 7 right. exists ew, eh.
        rewrite Hrew in Hno. refine (conj Hexp (conj Himg (conj Hno eq_refl))).
    + rewrite check_dimensions_after_error. cbn [fst errors].
      intros [<-|[]]. do 5 right. left. split; [reflexivity|exact Hgt].
  - rewrite later_checks_skipped. cbn [fst errors].
    intros [<-|[]].
    destruct Hx as [Hx|[Hx|[Hx|Hx]]].
    + left. exact Hx.
    + right. right. left. exact Hx.
    + do 3 right. left. exact Hx.
    + do 4 right. left. exact Hx.
Qed.


Lemma errors_origin_witness :
  let f := Sample.upload "poster.jpg" 20000000 Sample.not_a_pdf (Image 100 100 None) in
  let s := Msg.too_large 20000000 10 in
  (s = Msg.unsupported_format (extension (get_file_info f)) /\
   PyStr.mem (extension (get_file_info f)) ACCEPTED_EXTENSIONS = false) \/
  (s = Msg.book_needs_pdf /\
   is_book Sample.a4_sheet = true /\ extension (get_file_info f) <> ".pdf") \/
  (s = Msg.pdf_system_unavailable /\
   true = false /\ is_book Sample.a4_sheet = true /\
   exists n, book_pages Sample.a4_sheet = Some n /\ n <> 0) \/
  (is_book Sample.a4_sheet = true /\
   exists e p, pdf_view f 0 = (ReaderRaises e, p) /\ s = Msg.pdf_unreadable e) \/
  (is_book Sample.a4_sheet = true /\
   exists n pages p,
     book_pages Sample.a4_sheet = Some n /\ pdf_view f 0 = (Reader pages, p) /\
     Z.of_nat (List.length pages) <> n /\
     s = Msg.page_count (Z.of_nat (List.length pages)) n) \/
  (s = Msg.too_large (size f) 10 /\ 10 * 1024 * 1024 < size f) \/
  (exists ew eh,
     get_expected_dimensions Sample.a4_sheet = Some (ew, eh) /\
     extension (get_file_info f) = ".pdf" /\
     (forall w h rest p, pdf_view f 0 <> (Reader (MediaBox w h :: rest), p)) /\
     s = Msg.pdf_dimensions ew eh) \/
  (exists ew eh,
     get_expected_dimensions Sample.a4_sheet = Some (ew, eh) /\
     PyStr.mem (extension (get_file_info f)) IMAGE_EXTENSIONS = true /\
     fst (fst (validate_image_dimensions (seek 0 f) ew eh)) = false /\
     s = Msg.image_dimensions ew eh).
Proof.
  cbv zeta.
  apply (errors_origin true
    (Sample.upload "poster.jpg" 20000000 Sample.not_a_pdf (Image 100 100 None))
    Sample.a4_sheet (Msg.too_large 20000000 10)).
  vm_compute. left. reflexivity.
Defined.
